(** * go-outlook: the request-construction and response-dispatch path

    A shallow embedding of [outlook.go] (the [Client]) and [session.go]
    (the [Session], in its two versions) together with the parts of Go's
    standard library the two files call: [strings], [path], [net/url] and
    the request constructor of [net/http], as recent Go releases (1.20 and
    later) have them.  Go strings are byte strings and are modelled by
    [string] (one [ascii] per byte); [int] status codes are [Z].  A
    [context.Context] only carries cancellation and deadlines and is left
    out; the network is the list of the requests that were sent. *)

From Stdlib Require Import String Ascii List ZArith Lia Bool Arith.
From Stdlib Require Import DecimalString.
Import ListNotations.
Open Scope string_scope.

(** ** Errors

    Go's [error] values.  [ErrNoAccessToken] is the package sentinel (it is
    declared outside the two files; only its identity matters here).
    [ErrorString] stands for [errors.New] and for [fmt.Errorf] without [%w],
    [WrapError] for [fmt.Errorf] with a [%w] operand: both carry the formatted
    text.  [ResponseError] is the structured error of a response whose status
    reports a failure.  The remaining constructors are the error types of
    net/url and net/http. *)

Inductive error : Type :=
| ErrNoAccessToken
| ErrorString (text : string)
| WrapError (text : string) (cause : error)
| ResponseError (StatusCode : Z) (Message : string)
| EscapeError (s : string)
| InvalidHostError (s : string)
| InvalidPortError (colonPort : string)
| InvalidMethodError (method : string)
| URLError (Op URL : string) (Err : error).

(** A fallible result, written the way Go returns [(value, error)]. *)
Definition result (A : Type) : Type := (A + error)%type.

Definition ok {A} (a : A) : result A := inl a.
Definition fail {A} (e : error) : result A := inr e.

Definition bind {A B} (r : result A) (k : A -> result B) : result B :=
  match r with
  | inl a => k a
  | inr e => inr e
  end.

Declare Scope go_scope.
Delimit Scope go_scope with go.
Notation "x <- r ;; k" := (bind r (fun x => k))
  (at level 61, r at next level, right associativity) : go_scope.
Notation "' p <- r ;; k" := (bind r (fun p => k))
  (at level 61, p pattern, r at next level, right associativity) : go_scope.
Open Scope go_scope.

(** ** Bytes *)

Module Byte.

Definition code (c : ascii) : nat := nat_of_ascii c.

Definition between (lo hi c : ascii) : bool :=
  (code lo <=? code c)%nat && (code c <=? code hi)%nat.

Definition isLower (c : ascii) : bool := between "a" "z" c.
Definition isUpper (c : ascii) : bool := between "A" "Z" c.
Definition isDigit (c : ascii) : bool := between "0" "9" c.
Definition isAlpha (c : ascii) : bool := isLower c || isUpper c.
Definition isAlnum (c : ascii) : bool := isAlpha c || isDigit c.

(** [c] is one of the bytes of [set]. *)
Fixpoint oneOf (set : string) (c : ascii) : bool :=
  match set with
  | EmptyString => false
  | String d set' => Ascii.eqb c d || oneOf set' c
  end.

Definition toLower (c : ascii) : ascii :=
  if isUpper c then ascii_of_nat (code c + 32) else c.

(** [ishex] and [unhex] of net/url. *)
Definition ishex (c : ascii) : bool :=
  isDigit c || between "a" "f" c || between "A" "F" c.

Definition unhex (c : ascii) : nat :=
  if isDigit c then code c - code "0"
  else if between "a" "f" c then code c - code "a" + 10
  else if between "A" "F" c then code c - code "A" + 10
  else 0.

Definition upperhex (n : nat) : ascii :=
  match String.get n "0123456789ABCDEF" with
  | Some c => c
  | None => "0"%char
  end.

End Byte.

(** ** Package strings (the functions used below) *)

Module strings.

Fixpoint HasPrefix (s prefix : string) {struct prefix} : bool :=
  match prefix, s with
  | EmptyString, _ => true
  | String p prefix', String c s' => Ascii.eqb c p && HasPrefix s' prefix'
  | String _ _, EmptyString => false
  end.

Fixpoint HasSuffix (s suffix : string) : bool :=
  String.eqb s suffix ||
  match s with
  | EmptyString => false
  | String _ s' => HasSuffix s' suffix
  end.

(** [s[:n]] and [s[n:]] (for [n <= len(s)]). *)
Fixpoint take (n : nat) (s : string) : string :=
  match n, s with
  | S n', String c s' => String c (take n' s')
  | _, _ => EmptyString
  end.

Fixpoint drop (n : nat) (s : string) : string :=
  match n, s with
  | S n', String _ s' => drop n' s'
  | _, _ => s
  end.

(** [strings.Index]: the offset of the first occurrence of [sub]. *)
Fixpoint Index (s sub : string) : option nat :=
  if HasPrefix s sub then Some 0
  else match s with
       | EmptyString => None
       | String _ s' => option_map S (Index s' sub)
       end.

(** [strings.LastIndex] for a one-byte separator. *)
Fixpoint LastIndexByte (s : string) (c : ascii) : option nat :=
  match s with
  | EmptyString => None
  | String d s' =>
      match LastIndexByte s' c with
      | Some i => Some (S i)
      | None => if Ascii.eqb d c then Some 0 else None
      end
  end.

Definition Contains (s sub : string) : bool :=
  match Index s sub with Some _ => true | None => false end.

(** [strings.Count] for a one-byte separator. *)
Fixpoint CountByte (s : string) (c : ascii) : nat :=
  match s with
  | EmptyString => 0
  | String d s' => (if Ascii.eqb d c then 1 else 0) + CountByte s' c
  end.

(** [strings.Cut] for a one-byte separator: the text before and after the
    first [sep], and whether [sep] was found. *)
Fixpoint Cut (s : string) (sep : ascii) : string * string * bool :=
  match s with
  | EmptyString => (EmptyString, EmptyString, false)
  | String c s' =>
      if Ascii.eqb c sep then (EmptyString, s', true)
      else let '(before, after, found) := Cut s' sep in
           (String c before, after, found)
  end.

Fixpoint ToLower (s : string) : string :=
  match s with
  | EmptyString => EmptyString
  | String c s' => String (Byte.toLower c) (ToLower s')
  end.

Fixpoint all (p : ascii -> bool) (s : string) : bool :=
  match s with
  | EmptyString => true
  | String c s' => p c && all p s'
  end.

Definition TrimSuffix (s suffix : string) : string :=
  if HasSuffix s suffix then take (String.length s - String.length suffix) s
  else s.

End strings.

(** [strconv.Itoa] / the [%d] verb. *)
Definition Itoa (n : Z) : string := NilZero.string_of_int (Z.to_int n).

(** ** Package path

    [path.Clean] scans the path once, element by element: a slash and a [.]
    element are skipped, a [..] element removes the last element written (never
    below [dotdot]) or, in a relative path, is written itself, and any other
    element is appended after a separating slash.  The output buffer
    ([lazybuf]) is kept in reverse, its length is [out.w]. *)

Module path.

Record lazybuf : Type := mkbuf {
  out : list ascii;     (* the bytes written so far, last byte first *)
  dotdot : nat          (* the index below which [..] cannot backtrack *)
}.

Definition w (b : lazybuf) : nat := List.length (out b).

Definition append (b : lazybuf) (s : string) : lazybuf :=
  mkbuf (rev (list_ascii_of_string s) ++ out b) (dotdot b).

(** The inner loop of the [..] case, after [out.w--]: [c] is [out.index(out.w)]. *)
Fixpoint backtrack (c : ascii) (o : list ascii) (dd : nat) : list ascii :=
  if (dd <? List.length o)%nat && negb (Ascii.eqb c "/") then
    match o with
    | d :: o' => backtrack d o' dd
    | [] => o
    end
  else o.

(** One path element [elem] (the bytes between two slashes) has been read. *)
Definition element (rooted : bool) (b : lazybuf) (elem : string) : lazybuf :=
  if String.eqb elem "" then b                 (* empty path element *)
  else if String.eqb elem "." then b           (* . element *)
  else if String.eqb elem ".." then            (* .. element: remove to last / *)
    if (dotdot b <? w b)%nat then
      match out b with
      | c :: o => mkbuf (backtrack c o (dotdot b)) (dotdot b)
      | [] => b
      end
    else if negb rooted then
      let b1 := if (0 <? w b)%nat then append b "/" else b in
      let b2 := append b1 ".." in
      mkbuf (out b2) (w b2)
    else b
  else                                         (* real path element *)
    let b1 := if (rooted && negb (w b =? 1)%nat) || (negb rooted && negb (w b =? 0)%nat)
              then append b "/" else b in
    append b1 elem.

(** The scan: [cur] is the element being read (in reverse). *)
Fixpoint scan (rooted : bool) (s : string) (cur : list ascii) (b : lazybuf) : lazybuf :=
  match s with
  | EmptyString => element rooted b (string_of_list_ascii (rev cur))
  | String c s' =>
      if Ascii.eqb c "/"
      then scan rooted s' [] (element rooted b (string_of_list_ascii (rev cur)))
      else scan rooted s' (c :: cur) b
  end.

Definition Clean (p : string) : string :=
  match p with
  | EmptyString => "."
  | String c _ =>
      let rooted := Ascii.eqb c "/" in
      let b0 := if rooted then mkbuf ["/"%char] 1 else mkbuf [] 0 in
      let b := scan rooted p [] b0 in
      if (w b =? 0)%nat then "." else string_of_list_ascii (rev (out b))
  end.

(** [path.Join]: the non-empty elements joined by slashes, then cleaned. *)
Fixpoint joinElems (buf : string) (elem : list string) : string :=
  match elem with
  | [] => buf
  | e :: rest =>
      if negb (String.eqb buf "") || negb (String.eqb e "") then
        joinElems ((if negb (String.eqb buf "") then buf ++ "/" else buf) ++ e) rest
      else joinElems buf rest
  end.

Definition Join (elem : list string) : string :=
  if (fold_right (fun e n => String.length e + n) 0 elem =? 0)%nat then ""
  else Clean (joinElems "" elem).

End path.

(** ** Package net/url *)

Module url.

Inductive encoding : Type :=
| encodePath
| encodePathSegment
| encodeHost
| encodeZone
| encodeUserPassword
| encodeQueryComponent
| encodeFragment.

Definition isHostMode (mode : encoding) : bool :=
  match mode with encodeHost | encodeZone => true | _ => false end.

(** [shouldEscape]: whether byte [c] must be percent-encoded in [mode]. *)
Definition shouldEscape (c : ascii) (mode : encoding) : bool :=
  if Byte.isAlnum c then false
  else if isHostMode mode && (Byte.oneOf "!$&'()*+,;=:[]<>" c || (Byte.code c =? 34)%nat) then false
  else if Byte.oneOf "-_.~" c then false
  else if Byte.oneOf "$&+,/:;=?@" c then
    match mode with
    | encodePath => Ascii.eqb c "?"
    | encodePathSegment => Byte.oneOf "/;,?" c
    | encodeUserPassword => Byte.oneOf "@/?:" c
    | encodeQueryComponent => true
    | encodeFragment => false
    | encodeHost | encodeZone => true
    end
  else match mode with
       | encodeFragment => negb (Byte.oneOf "!()*" c)
       | _ => true
       end.

Definition unhex2 (a b : ascii) : ascii :=
  ascii_of_nat (16 * Byte.unhex a + Byte.unhex b).

(** The first pass of [unescape]: every [%] starts a well-formed escape that
    [mode] admits, and no host byte needs escaping. *)
Fixpoint unescapeCheck (s : string) (mode : encoding) : option error :=
  match s with
  | EmptyString => None
  | String c rest =>
      if Ascii.eqb c "%" then
        match rest with
        | String a (String b rest') =>
            if negb (Byte.ishex a && Byte.ishex b) then Some (EscapeError (strings.take 3 s))
            else if match mode with encodeHost => true | _ => false end
                    && (Byte.unhex a <? 8)%nat
                    && negb (String.eqb (strings.take 3 s) "%25")
                 then Some (EscapeError (strings.take 3 s))
            else if match mode with encodeZone => true | _ => false end
                    && negb (String.eqb (strings.take 3 s) "%25")
                    && negb (Ascii.eqb (unhex2 a b) " ")
                    && shouldEscape (unhex2 a b) encodeHost
                 then Some (EscapeError (strings.take 3 s))
            else unescapeCheck rest' mode
        | _ => Some (EscapeError (strings.take 3 s))
        end
      else if isHostMode mode && (Byte.code c <? 128)%nat && shouldEscape c encodeHost
      then Some (InvalidHostError (String c ""))
      else unescapeCheck rest mode
  end.

(** The second pass of [unescape]: decode (the input has passed the check). *)
Fixpoint unescapeDecode (s : string) (mode : encoding) : string :=
  match s with
  | EmptyString => EmptyString
  | String c rest =>
      if Ascii.eqb c "%" then
        match rest with
        | String a (String b rest') => String (unhex2 a b) (unescapeDecode rest' mode)
        | _ => EmptyString
        end
      else if Ascii.eqb c "+" then
        String (match mode with encodeQueryComponent => " "%char | _ => "+"%char end)
               (unescapeDecode rest mode)
      else String c (unescapeDecode rest mode)
  end.

Definition unescape (s : string) (mode : encoding) : result string :=
  match unescapeCheck s mode with
  | Some e => fail e
  | None => ok (unescapeDecode s mode)
  end.

Fixpoint escape (s : string) (mode : encoding) : string :=
  match s with
  | EmptyString => EmptyString
  | String c rest =>
      if shouldEscape c mode then
        if Ascii.eqb c " " && match mode with encodeQueryComponent => true | _ => false end
        then String "+" (escape rest mode)
        else String "%" (String (Byte.upperhex (Byte.code c / 16))
                        (String (Byte.upperhex (Byte.code c mod 16)) (escape rest mode)))
      else String c (escape rest mode)
  end.

(** [validEncoded]: [s] is a valid encoded path or fragment. *)
Definition validEncoded (s : string) (mode : encoding) : bool :=
  strings.all (fun c => Byte.oneOf "!$&'()*+,;=:@[]%" c || negb (shouldEscape c mode)) s.

Record Userinfo : Type := mkUserinfo {
  username : string;
  password : string;
  passwordSet : bool
}.

Record URL : Type := mkURL {
  Scheme : string;
  Opaque : string;
  User : option Userinfo;
  Host : string;
  Path : string;
  RawPath : string;
  OmitHost : bool;
  ForceQuery : bool;
  RawQuery : string;
  Fragment : string;
  RawFragment : string
}.

Definition empty : URL := mkURL "" "" None "" "" "" false false "" "" "".

Definition stringContainsCTLByte (s : string) : bool :=
  negb (strings.all (fun c => negb ((Byte.code c <? 32)%nat || (Byte.code c =? 127)%nat)) s).

(** [getScheme]: split off a leading [scheme:]. *)
Fixpoint getSchemeFrom (i : nat) (s rawURL : string) : result (string * string) :=
  match s with
  | EmptyString => ok ("", rawURL)
  | String c s' =>
      if Byte.isAlpha c then getSchemeFrom (S i) s' rawURL
      else if Byte.isDigit c || Byte.oneOf "+-." c then
        if (i =? 0)%nat then ok ("", rawURL) else getSchemeFrom (S i) s' rawURL
      else if Ascii.eqb c ":" then
        if (i =? 0)%nat then fail (ErrorString "missing protocol scheme")
        else ok (strings.take i rawURL, s')
      else ok ("", rawURL)
  end.

Definition getScheme (rawURL : string) : result (string * string) :=
  getSchemeFrom 0 rawURL rawURL.

Definition validOptionalPort (port : string) : bool :=
  match port with
  | EmptyString => true
  | String c digits => Ascii.eqb c ":" && strings.all Byte.isDigit digits
  end.

Definition validUserinfo (s : string) : bool :=
  strings.all (fun c => Byte.isAlnum c || Byte.oneOf "-._:~!$&'()*+,;=%@" c) s.

Definition parseHost (host : string) : result string :=
  let generic := unescape host encodeHost in
  if strings.HasPrefix host "[" then
    match strings.LastIndexByte host "]" with
    | None => fail (ErrorString "missing ']' in host")
    | Some i =>
        let colonPort := strings.drop (i + 1) host in
        if negb (validOptionalPort colonPort) then fail (InvalidPortError colonPort)
        else match strings.Index (strings.take i host) "%25" with
             | Some zone =>
                 host1 <- unescape (strings.take zone host) encodeHost ;;
                 host2 <- unescape (strings.drop zone (strings.take i host)) encodeZone ;;
                 host3 <- unescape (strings.drop i host) encodeHost ;;
                 ok (host1 ++ host2 ++ host3)
             | None => generic
             end
    end
  else
    match strings.LastIndexByte host ":" with
    | Some i =>
        let colonPort := strings.drop i host in
        if negb (validOptionalPort colonPort) then fail (InvalidPortError colonPort)
        else generic
    | None => generic
    end.

Definition parseAuthority (authority : string) : result (option Userinfo * string) :=
  match strings.LastIndexByte authority "@" with
  | None => host <- parseHost authority ;; ok (None, host)
  | Some i =>
      host <- parseHost (strings.drop (i + 1) authority) ;;
      let userinfo := strings.take i authority in
      if negb (validUserinfo userinfo) then fail (ErrorString "net/url: invalid userinfo")
      else if negb (strings.Contains userinfo ":") then
        name <- unescape userinfo encodeUserPassword ;;
        ok (Some (mkUserinfo name "" false), host)
      else
        let '(name, pass, _) := strings.Cut userinfo ":" in
        name <- unescape name encodeUserPassword ;;
        pass <- unescape pass encodeUserPassword ;;
        ok (Some (mkUserinfo name pass true), host)
  end.

(** [setPath]: set [Path] and, when the default encoding of the path differs
    from [p], the hint [RawPath]. *)
Definition setPath (u : URL) (p : string) : result URL :=
  path <- unescape p encodePath ;;
  ok (mkURL (Scheme u) (Opaque u) (User u) (Host u) path
            (if String.eqb p (escape path encodePath) then "" else p)
            (OmitHost u) (ForceQuery u) (RawQuery u) (Fragment u) (RawFragment u)).

Definition setFragment (u : URL) (f : string) : result URL :=
  frag <- unescape f encodeFragment ;;
  ok (mkURL (Scheme u) (Opaque u) (User u) (Host u) (Path u) (RawPath u)
            (OmitHost u) (ForceQuery u) (RawQuery u) frag
            (if String.eqb f (escape frag encodeFragment) then "" else f)).

(** [parse]: a URL without its fragment. *)
Definition parse (rawURL : string) (viaRequest : bool) : result URL :=
  if stringContainsCTLByte rawURL then
    fail (ErrorString "net/url: invalid control character in URL")
  else if String.eqb rawURL "" && viaRequest then fail (ErrorString "empty url")
  else if String.eqb rawURL "*" then
    ok (mkURL "" "" None "" "*" "" false false "" "" "")
  else
    '(scheme, rest) <- getScheme rawURL ;;
    let scheme := strings.ToLower scheme in
    let '(rest, forceQuery, rawQuery) :=
      if strings.HasSuffix rest "?" && (strings.CountByte rest "?" =? 1)%nat
      then (strings.take (String.length rest - 1) rest, true, "")
      else let '(before, after, _) := strings.Cut rest "?" in (before, false, after) in
    let u := mkURL scheme "" None "" "" "" false forceQuery rawQuery "" "" in
    if negb (strings.HasPrefix rest "/") && negb (String.eqb scheme "") then
      (* rootless paths are opaque *)
      ok (mkURL scheme rest None "" "" "" false forceQuery rawQuery "" "")
    else if negb (strings.HasPrefix rest "/") && viaRequest then
      fail (ErrorString "invalid URI for request")
    else if negb (strings.HasPrefix rest "/")
            && strings.Contains (fst (fst (strings.Cut rest "/"))) ":" then
      fail (ErrorString "first path segment in URL cannot contain colon")
    else if (negb (String.eqb scheme "")
             || (negb viaRequest && negb (strings.HasPrefix rest "///")))
            && strings.HasPrefix rest "//" then
      let authority := strings.drop 2 rest in
      let '(authority, rest) :=
        match strings.Index authority "/" with
        | Some i => (strings.take i authority, strings.drop i authority)
        | None => (authority, "")
        end in
      '(user, host) <- parseAuthority authority ;;
      setPath (mkURL scheme "" user host "" "" false forceQuery rawQuery "" "") rest
    else if negb (String.eqb scheme "") && strings.HasPrefix rest "/" then
      setPath (mkURL scheme "" None "" "" "" true forceQuery rawQuery "" "") rest
    else setPath u rest.

(** [url.Parse]. *)
Definition Parse (rawURL : string) : result URL :=
  let '(u, frag, _) := strings.Cut rawURL "#" in
  match parse u false with
  | inr err => fail (URLError "parse" u err)
  | inl url =>
      if String.eqb frag "" then ok url
      else match setFragment url frag with
           | inr err => fail (URLError "parse" rawURL err)
           | inl url' => ok url'
           end
  end.

Definition EscapedPath (u : URL) : string :=
  if negb (String.eqb (RawPath u) "") && validEncoded (RawPath u) encodePath
     && match unescape (RawPath u) encodePath with
        | inl p => String.eqb p (Path u)
        | inr _ => false
        end
  then RawPath u
  else if String.eqb (Path u) "*" then "*"
  else escape (Path u) encodePath.

Definition EscapedFragment (u : URL) : string :=
  if negb (String.eqb (RawFragment u) "") && validEncoded (RawFragment u) encodeFragment
     && match unescape (RawFragment u) encodeFragment with
        | inl f => String.eqb f (Fragment u)
        | inr _ => false
        end
  then RawFragment u
  else escape (Fragment u) encodeFragment.

Definition UserinfoString (ui : Userinfo) : string :=
  escape (username ui) encodeUserPassword ++
  (if passwordSet ui then ":" ++ escape (password ui) encodeUserPassword else "").

(** [URL.String]: reassemble the URL. *)
Definition String_ (u : URL) : string :=
  let buf := if negb (String.eqb (Scheme u) "") then Scheme u ++ ":" else "" in
  let buf :=
    if negb (String.eqb (Opaque u) "") then buf ++ Opaque u
    else
      let hasUser := match User u with Some _ => true | None => false end in
      let buf :=
        if negb (String.eqb (Scheme u) "") || negb (String.eqb (Host u) "") || hasUser then
          if OmitHost u && String.eqb (Host u) "" && negb hasUser then buf
          else
            let buf := if negb (String.eqb (Host u) "") || negb (String.eqb (Path u) "") || hasUser
                       then buf ++ "//" else buf in
            let buf := match User u with
                       | Some ui => buf ++ UserinfoString ui ++ "@"
                       | None => buf
                       end in
            if negb (String.eqb (Host u) "") then buf ++ escape (Host u) encodeHost else buf
        else buf in
      let path := EscapedPath u in
      let buf := if negb (String.eqb path "") && negb (strings.HasPrefix path "/")
                    && negb (String.eqb (Host u) "")
                 then buf ++ "/" else buf in
      let buf := if String.eqb buf ""
                    && strings.Contains (fst (fst (strings.Cut path "/"))) ":"
                 then buf ++ "./" else buf in
      buf ++ path in
  let buf := if ForceQuery u || negb (String.eqb (RawQuery u) "")
             then buf ++ "?" ++ RawQuery u else buf in
  if negb (String.eqb (Fragment u) "") then buf ++ "#" ++ EscapedFragment u else buf.

(** [URL.Hostname]: the host without a valid port and without brackets. *)
Definition Hostname (u : URL) : string :=
  let host := Host u in
  let host :=
    match strings.LastIndexByte host ":" with
    | Some colon => if validOptionalPort (strings.drop colon host)
                    then strings.take colon host else host
    | None => host
    end in
  if strings.HasPrefix host "[" && strings.HasSuffix host "]"
  then strings.drop 1 (strings.take (String.length host - 1) host)
  else host.

(** [URL.JoinPath] with one element: join [elem] to the escaped path and
    clean the result.  The error of [setPath] is dropped, as the method does:
    the copy then keeps the path of [u]. *)
Definition JoinPath (u : URL) (elem : string) : URL :=
  let elem0 := EscapedPath u in
  let p :=
    if negb (strings.HasPrefix elem0 "/")
    then strings.drop 1 (path.Join ["/" ++ elem0; elem])
    else path.Join [elem0; elem] in
  let p := if strings.HasSuffix elem "/" && negb (strings.HasSuffix p "/")
           then p ++ "/" else p in
  match setPath u p with
  | inl u' => u'
  | inr _ => u
  end.

(** [url.Values] (a map from a key to its values; each key occurs once) and
    [Values.Encode]: the pairs in key order, query-escaped. *)
Definition Values : Type := list (string * list string).

Definition QueryEscape (s : string) : string := escape s encodeQueryComponent.

Fixpoint insertKey (kv : string * list string) (sorted : Values) : Values :=
  match sorted with
  | [] => [kv]
  | kv' :: rest =>
      if String.leb (fst kv) (fst kv') then kv :: sorted else kv' :: insertKey kv rest
  end.

Definition sortKeys (v : Values) : Values := fold_right insertKey [] v.

Definition Encode (v : Values) : string :=
  fold_left
    (fun buf kv =>
       fold_left
         (fun buf val =>
            (if negb (String.eqb buf "") then buf ++ "&" else buf)
              ++ QueryEscape (fst kv) ++ "=" ++ QueryEscape val)
         (snd kv) buf)
    (sortKeys v) "".

End url.

(** ** Package net/http (requests, response bodies) *)

Module http.

Definition MethodGet : string := "GET".
Definition MethodPost : string := "POST".
Definition MethodPatch : string := "PATCH".
Definition MethodDelete : string := "DELETE".
Definition StatusAccepted : Z := 202.

(** A header: the (key, value) lines in the order they were added. *)
Definition Header : Type := list (string * string).

Definition Add (h : Header) (key value : string) : Header := (h ++ [(key, value)])%list.

Definition Set_ (h : Header) (key value : string) : Header :=
  (filter (fun kv => negb (String.eqb (fst kv) key)) h ++ [(key, value)])%list.

Record Request : Type := mkRequest {
  Method : string;
  URL : url.URL;
  Headers : Header;
  Payload : string         (* the bytes of the request body *)
}.

Definition isTokenByte (c : ascii) : bool :=
  Byte.isAlnum c || Byte.oneOf "!#$%&'*+-.^_`|~" c.

Definition validMethod (method : string) : bool :=
  negb (String.eqb method "") && strings.all isTokenByte method.

Definition hasPort (s : string) : bool :=
  match strings.LastIndexByte s ":", strings.LastIndexByte s "]" with
  | Some i, Some j => (j <? i)%nat
  | Some _, None => true
  | None, _ => false
  end.

Definition removeEmptyPort (host : string) : string :=
  if hasPort host then strings.TrimSuffix host ":" else host.

(** The URL a request for [rawurl] carries: parsed, the empty port removed. *)
Definition requestURL (rawurl : string) : result url.URL :=
  u <- url.Parse rawurl ;;
  ok (url.mkURL (url.Scheme u) (url.Opaque u) (url.User u) (removeEmptyPort (url.Host u))
                (url.Path u) (url.RawPath u) (url.OmitHost u) (url.ForceQuery u)
                (url.RawQuery u) (url.Fragment u) (url.RawFragment u)).

(** [http.NewRequest]. *)
Definition NewRequest (method rawurl : string) (body : string) : result Request :=
  let method := if String.eqb method "" then "GET" else method in
  if negb (validMethod method) then fail (InvalidMethodError method)
  else u <- requestURL rawurl ;;
       ok (mkRequest method u [] body).

(** A response body as the transport of net/http hands it out: the unread
    bytes, whether [Close] was called, and what [Close] reports.  Reading a
    closed body fails. *)
Record Body : Type := mkBody {
  unread : string;
  closed : bool;
  closeErr : option error
}.

Definition errReadOnClosedResBody : error :=
  ErrorString "http: read on closed response body".

Definition Close (b : Body) : option error * Body :=
  (closeErr b, mkBody (unread b) true (closeErr b)).

(** Read the body to its end. *)
Definition ReadAll (b : Body) : result string * Body :=
  if closed b then (fail errReadOnClosedResBody, b)
  else (ok (unread b), mkBody "" false (closeErr b)).

Record Response : Type := mkResponse {
  StatusCode : Z;
  ResponseBody : Body
}.

Definition withBody (r : Response) (b : Body) : Response :=
  mkResponse (StatusCode r) b.

(** [http.Client]: what [Do] answers to a request. *)
Definition Client : Type := Request -> result Response.

End http.

(** ** Package outlook: data model (outlook.go 18-51, session.go 11-17) *)

Definition ClientVersion : string := "0.1.0".
Definition DefaultBaseURL : string := "https://graph.microsoft.com/v1.0".
Definition DefaultUserAgent : string := "go-outlook/" ++ ClientVersion.

(** The package constant [mediaType]. *)
Definition mediaType_const : string := "application/json".

(** An [oauth2.Token], as far as the session reads it. *)
Record Token : Type := mkToken {
  AccessToken : string;
  RefreshToken : string
}.

(** [Client].  [tokenSource] is what [tokenSource.Token()] answers. *)
Record Client : Type := mkClient {
  client : http.Client;
  baseURL : url.URL;
  userAgent : string;
  mediaType : string;
  tokenSource : result Token
}.

(** [Session]; its [client] field is [session_client]. *)
Record Session : Type := mkSession {
  session_client : Client;
  basePath : string;
  accessToken : string;
  refreshToken : string
}.

(** [SetMediaType] (and the option [SetClientMediaType]). *)
Definition SetMediaType (c : Client) (mType : string) : Client :=
  mkClient (client c) (baseURL c) (userAgent c) mType (tokenSource c).

Definition withBaseURL (c : Client) (u : url.URL) : Client :=
  mkClient (client c) u (userAgent c) (mediaType c) (tokenSource c).

(** [NewSession] (session.go 20-34). *)
Definition NewSession (c : Client) : result Session :=
  token <- tokenSource c ;;
  ok (mkSession c "/me" (AccessToken token) (RefreshToken token)).

(** What a call hands back: Go's pair [(response, err)] with [err == nil]
    ([Success]) or with [err != nil] ([Failure]; the response may be nil). *)
Inductive Return : Type :=
| Success (response : http.Response)
| Failure (response : option http.Response) (err : error).

Definition returning (response : http.Response) (err : option error) : Return :=
  match err with
  | None => Success response
  | Some e => Failure (Some response) e
  end.


Definition returnedResponse (r : Return) : option http.Response :=
  match r with
  | Success resp => Some resp
  | Failure resp _ => resp
  end.

(** What the two files take from outside: Go values passed as [interface{}]
    (request bodies, decode targets, parameter values) with the operations of
    the run time, of encoding/json and of strconv on them, and the package
    members the files use but do not declare. *)
Class Environment : Type := {
  Value : Type;
  (** the literal [map[string]interface{}{...}] *)
  mapValue : list (string * Value) -> Value;
  (** the type assertion [body.(url.Values)] *)
  asValues : Value -> option url.Values;
  (** [json.NewEncoder(buf).Encode(v)]: the bytes written, or the error *)
  jsonEncode : Value -> result string;
  (** [json.NewDecoder(r).Decode(v)] on the bytes of [r]: the value [v] then holds *)
  jsonDecode : string -> Value -> result Value;
  (** decoding into [struct { Message string }]: the [Message] read *)
  jsonDecodeAPIError : string -> result string;
  (** [strconv.Quote], the [%q] verb *)
  Quote : string -> string;
  (** the package function [createQueryString] *)
  createQueryString : list (string * Value) -> string;
  (** the package function [checkResponse]: its error, and the body as it leaves it *)
  checkResponse : http.Response -> option error * http.Body;
  (** the text of [ErrNoAccessToken] *)
  noAccessTokenText : string
}.

Section Outlook.

Context {env : Environment}.

(** The method [Error()] of an error value.  (The text of [ResponseError] is
    not fixed by the two files; status and message are taken to appear in
    it.) *)
Fixpoint Error (e : error) : string :=
  match e with
  | ErrNoAccessToken => noAccessTokenText
  | ErrorString text => text
  | WrapError text _ => text
  | ResponseError status message => Itoa status ++ " " ++ message
  | EscapeError s => "invalid URL escape " ++ Quote s
  | InvalidHostError s => "invalid character " ++ Quote s ++ " in host name"
  | InvalidPortError colonPort => "invalid port " ++ Quote colonPort ++ " after host"
  | InvalidMethodError method => "net/http: invalid method " ++ Quote method
  | URLError op u err => op ++ " " ++ Quote u ++ ": " ++ Error err
  end.

(** The caller's [v interface{}]: an [io.Writer] (the bytes it has received
    and what its [Write] reports) or any other value, decoded into. *)
Inductive Sink : Type :=
| Writer (written : string) (writeErr : option error)
| Target (v : Value).

(** The effects of a call: the requests sent over the network so far, the
    sink, and what is returned. *)
Record Outcome : Type := mkOutcome {
  net : list http.Request;
  sink : option Sink;
  ret : Return
}.

(** *** Client.NewRequest (outlook.go 95-136) *)

Definition errBodyNotValues : error :=
  ErrorString "body must be of type url.Values when Content-Type is set to application/x-www-form-urlencoded".

(** Lines 107-124: the bytes of [encodedBody], chosen by the media type of
    the client.  The [switch] has no default case. *)
Definition encodeBody (c : Client) (body : option Value) : result string :=
  match body with
  | None => ok ""
  | Some b =>
      if String.eqb (mediaType c) "application/json" then jsonEncode b
      else if String.eqb (mediaType c) "application/x-www-form-urlencoded" then
        match asValues b with
        | Some v => ok (url.Encode v)
        | None => fail errBodyNotValues
        end
      else ok ""
  end.

Definition NewRequest (c : Client) (method path : string) (body : option Value)
  : result http.Request :=
  pathURL <- url.Parse path ;;
  let fullURL :=
    if negb (String.eqb (url.Hostname pathURL) "") then path
    else url.String_ (baseURL c) ++ path in
  encodedBody <- encodeBody c body ;;
  req <- http.NewRequest method fullURL encodedBody ;;
  ok (http.mkRequest (http.Method req) (http.URL req)
        (http.Add (http.Add (http.Add (http.Headers req)
           "Content-Type" (mediaType c)) "Accept" mediaType_const) "User-Agent" (userAgent c))
        (http.Payload req)).

(** *** Client.Do (outlook.go 139-172) *)

(** [io.Copy(w, body)]: a body without bytes never calls [Write]. *)
Definition Copy (written : string) (writeErr : option error) (b : http.Body)
  : option error * Sink * http.Body :=
  match http.ReadAll b with
  | (inr e, b') => (Some e, Writer written writeErr, b')
  | (inl bytes, b') =>
      if String.eqb bytes "" then (None, Writer written writeErr, b')
      else match writeErr with
           | Some e => (Some e, Writer written writeErr, b')
           | None => (None, Writer (written ++ bytes) None, b')
           end
  end.

(** A JSON decoder on a body: a failing read is the decoder's error, and a
    failed decoding leaves the target as it was. *)
Definition Decode {A : Type} (unmarshal : string -> result A) (b : http.Body)
  : result A * http.Body :=
  match http.ReadAll b with
  | (inr e, b') => (fail e, b')
  | (inl bytes, b') => (unmarshal bytes, b')
  end.

(** The variables of [Do] a deferred call can see. *)
Record Frame : Type := mkFrame {
  frame_v : option Sink;
  frame_body : http.Body;
  frame_err : option error      (* the local variable [err] *)
}.

(** Lines 152-171: from [checkResponse] to the [return] statement that is
    reached; [frame_err] is the operand [err] of that statement. *)
Definition Do_statements (response : http.Response) (v : option Sink) : Frame :=
  let '(err, body) := checkResponse response in
  match err with
  | Some _ => mkFrame v body err
  | None =>
      match v with
      | None => mkFrame v body None
      | Some (Writer written writeErr) =>
          let '(err, w, body) := Copy written writeErr body in
          mkFrame (Some w) body err
      | Some (Target t) =>
          match Decode (fun bytes => jsonDecode bytes t) body with
          | (inr e, body) => mkFrame v body (Some e)
          | (inl t', body) => mkFrame (Some (Target t')) body None
          end
      end
  end.

(** Lines 146-150, the deferred closure: close the body and, when that fails,
    assign the failure to the variable [err]. *)
Definition Do_deferred (f : Frame) : Frame :=
  let '(closeErr, body) := http.Close (frame_body f) in
  mkFrame (frame_v f) body
          (match closeErr with Some e => Some e | None => frame_err f end).

(** [Do].  Its results are unnamed: [return response, err] copies the value of
    [err] into the result before the deferred closure runs, so what the
    closure assigns to the variable afterwards is not what the caller gets. *)
Definition Do (c : Client) (req : http.Request) (v : option Sink)
    (net0 : list http.Request) : Outcome :=
  let net1 := (net0 ++ [req])%list in
  match client c req with
  | inr err => mkOutcome net1 v (Failure None err)
  | inl response =>
      let atReturn := Do_statements response v in
      let afterDefer := Do_deferred atReturn in
      mkOutcome net1 (frame_v atReturn)
        (returning (http.withBody response (frame_body afterDefer)) (frame_err atReturn))
  end.

(** *** Session.query (session.go 36-65) *)

Definition Params : Type := list (string * Value).

Definition withRawQuery (u : url.URL) (q : string) : url.URL :=
  url.mkURL (url.Scheme u) (url.Opaque u) (url.User u) (url.Host u) (url.Path u)
            (url.RawPath u) (url.OmitHost u) (url.ForceQuery u) q
            (url.Fragment u) (url.RawFragment u).

(** Lines 37-52: the path [query] hands to [NewRequest] ([path.String()]),
    or the error of parsing the base path.  [params] is [None] for a nil map;
    [queryString] is the variable of lines 37-40. *)
Definition queryString (params : option Params) : string :=
  match params with
  | Some m => createQueryString m
  | None => ""
  end.

Definition requestPath (s : Session) (urlPath : string) (params : option Params)
  : result string :=
  let queryString := queryString params in
  parsedBasePath <- url.Parse (basePath s) ;;
  let path := url.JoinPath parsedBasePath urlPath in
  let path := if negb (String.eqb queryString "") then withRawQuery path queryString
              else path in
  ok (url.String_ path).

Definition failed (net0 : list http.Request) (v : option Sink) (err : error) : Outcome :=
  mkOutcome net0 v (Failure None err).

Definition authorize (s : Session) (req : http.Request) : http.Request :=
  http.mkRequest (http.Method req) (http.URL req)
    (http.Set_ (http.Headers req) "Authorization" ("Bearer " ++ accessToken s))
    (http.Payload req).

Definition query (s : Session) (method urlPath : string) (params : option Params)
    (data : option Value) (result : option Sink) (net0 : list http.Request) : Outcome :=
  match requestPath s urlPath params with
  | inr err => failed net0 result err
  | inl path =>
      match NewRequest (session_client s) method path data with
      | inr err => failed net0 result err
      | inl req =>
          if String.eqb (accessToken s) "" then failed net0 result ErrNoAccessToken
          else Do (session_client s) (authorize s req) result net0
      end
  end.

(** The error of building the request, as [query] builds it (lines 37-55):
    of parsing the base path or of [NewRequest]; [None] when the request can
    be built. *)
Definition buildError (s : Session) (method urlPath : string) (params : option Params)
    (data : option Value) : option error :=
  match requestPath s urlPath params with
  | inr err => Some err
  | inl path =>
      match NewRequest (session_client s) method path data with
      | inr err => Some err
      | inl _ => None
      end
  end.

(** A call that fails without sending anything: the network is as before, no
    response is returned, and the error is that of building the request or,
    when the request can be built, [ErrNoAccessToken]. *)
Definition failsOffline (net0 net1 : list http.Request) (r : Return)
    (building : option error) : Prop :=
  net1 = net0
  /\ r = Failure None (match building with
                       | Some err => err
                       | None => ErrNoAccessToken
                       end).

(** *** The public verbs (session.go 67-85) *)

Definition Get (s : Session) (url : string) (params : option Params)
    (result : option Sink) (net0 : list http.Request) : Outcome :=
  query s http.MethodGet url params None result net0.

Definition Post (s : Session) (url : string) (data : option Value)
    (result : option Sink) (net0 : list http.Request) : Outcome :=
  query s http.MethodPost url None data result net0.

Definition Patch (s : Session) (url : string) (data : option Value)
    (result : option Sink) (net0 : list http.Request) : Outcome :=
  query s http.MethodPatch url None data result net0.

Definition Delete (s : Session) (url : string) (params : option Params)
    (result : option Sink) (net0 : list http.Request) : Outcome :=
  query s http.MethodDelete url params None result net0.

(** *** Session.Send (session.go 107-134) *)

Definition sendFailedText (status : Z) (message : string) : string :=
  "failed to send email: status " ++ Itoa status ++ ": " ++ message.

Definition sendUnparsedText (status : Z) (err : error) : string :=
  "failed to send email: status " ++ Itoa status
    ++ ": Failed to parse error response: " ++ Error err.

(** The requests sent and the error returned ([None] is nil). *)
Definition Send (s : Session) (message : Value) (net0 : list http.Request)
  : list http.Request * option error :=
  let endpoint := "/sendMail" in
  let body := mapValue [("message", message)] in
  let o := query s http.MethodPost endpoint None (Some body) None net0 in
  match ret o with
  | Failure _ err => (net o, Some err)
  | Success resp =>
      if negb (http.StatusCode resp =? http.StatusAccepted)%Z then
        match fst (Decode jsonDecodeAPIError (http.ResponseBody resp)) with
        | inr err =>
            (net o, Some (WrapError (sendUnparsedText (http.StatusCode resp) err) err))
        | inl apiErrorMessage =>
            (net o, Some (ErrorString (sendFailedText (http.StatusCode resp) apiErrorMessage)))
        end
      else (net o, None)
  end.

(** *** The second Session.query (session.go 168-189): the path is the plain
    concatenation of base path, relative path and query string. *)

Definition requestPath_concat (s : Session) (url : string) (params : option Params)
  : string :=
  let queryString := queryString params in
  basePath s ++ url ++ queryString.

Definition query_concat (s : Session) (method url : string) (params : option Params)
    (data : option Value) (result : option Sink) (net0 : list http.Request) : Outcome :=
  let path := requestPath_concat s url params in
  match NewRequest (session_client s) method path data with
  | inr err => failed net0 result err
  | inl req =>
      if String.eqb (accessToken s) "" then failed net0 result ErrNoAccessToken
      else Do (session_client s) (authorize s req) result net0
  end.

End Outlook.

(** ** Plain relative paths

    The relative paths on which joining is concatenation: one or more
    elements separated by single slashes, none of them empty, [.] or [..],
    made of bytes a path holds unescaped, after an optional leading slash. *)

Definition pathByte (c : ascii) : bool := negb (url.shouldEscape c url.encodePath).

Definition plainByte (c : ascii) : bool := pathByte c && negb (Ascii.eqb c "/").

Definition plainElement (e : string) : bool :=
  negb (String.eqb e "") && negb (String.eqb e ".") && negb (String.eqb e "..")
  && strings.all plainByte e.

Fixpoint joinElements (es : list string) : string :=
  match es with
  | [] => ""
  | [e] => e
  | e :: rest => e ++ "/" ++ joinElements rest
  end.

Definition plainPath (lead : bool) (es : list string) : string :=
  (if lead then "/" else "") ++ joinElements es.

(** The separator [path.Clean] writes before an element of a rooted path
    (none directly after the root), and the buffer after [s] was written. *)
Definition separator (b : path.lazybuf) : string :=
  if (path.w b =? 1)%nat then "" else "/".

Definition written (b : path.lazybuf) (s : string) : path.lazybuf :=
  path.mkbuf (rev (list_ascii_of_string s) ++ path.out b) (path.dotdot b).

(** The URL of a path alone, as [url.Parse] and [setPath] leave it. *)
Definition pathURL (p q : string) : url.URL :=
  url.mkURL "" "" None "" p "" false false q "" "".

(** [trim(p)] of the specification: [p] without its leading slashes. *)
Fixpoint trim (p : string) : string :=
  match p with
  | String c p' => if Ascii.eqb c "/" then trim p' else p
  | EmptyString => p
  end.

(** ** The response check, from the specification *)

Definition is2xx (status : Z) : bool := (200 <=? status)%Z && (status <=? 299)%Z.

(** Modelled from the spec: the package function [checkResponse] is declared
    outside the two files.  For a status from 200 to 299 it reports no error
    and leaves the body for the caller's result (section 8: "For all
    responses with status 200-299 and a valid JSON body ... Do returns no
    error and populates the sink"). *)
Definition passes2xx {env : Environment} : Prop :=
  forall r, is2xx (http.StatusCode r) = true ->
            checkResponse r = (None, http.ResponseBody r).

(** Modelled from the spec: [checkResponse], declared outside the two files,
    reports an error for every other status (section 4.1: "a non-2xx status
    must produce a structured error even if a resultSink was supplied"). *)
Definition rejectsOther {env : Environment} : Prop :=
  forall r, is2xx (http.StatusCode r) = false ->
            exists err, fst (checkResponse r) = Some err.

Module Spec.

(** Modelled from the spec: the package function [checkResponse], which
    outlook.go calls and neither file declares.  Section 7: a non-2xx status
    on a round-tripped response gives "a structured error carrying at least
    the status code and, where available, a decoded error message from the
    response body; if the body can't be parsed as expected, the parse failure
    is wrapped together with the status code rather than discarded".  A status
    from 200 to 299 is no error and leaves the body unread. *)
Definition checkResponse (decode : string -> result string) (r : http.Response)
  : option error * http.Body :=
  let status := http.StatusCode r in
  if is2xx status then (None, http.ResponseBody r)
  else match Decode decode (http.ResponseBody r) with
       | (inl message, b) => (Some (ResponseError status message), b)
       | (inr e, b) =>
           (Some (WrapError (Itoa status ++ ": failed to parse the error response") e), b)
       end.

End Spec.

(** ** Doubles: a small environment and transports that answer from a script *)

Module Double.

(** The values of the examples: nil, a string, form values, and a map
    literal, kept as the JSON text of its members. *)
Inductive Value : Type :=
| Null
| Str (s : string)
| Form (v : url.Values)
| Obj (members : string).

Definition dq : ascii := ascii_of_nat 34.
Definition newline : ascii := ascii_of_nat 10.
Definition quoted (s : string) : string := String dq (s ++ String dq "").

(** JSON text of a value (strings are taken to need no escaping). *)
Definition encode (v : Value) : string :=
  match v with
  | Null => "null"
  | Str s => quoted s
  | Form _ => "{}"
  | Obj members => "{" ++ members ++ "}"
  end.

Fixpoint members (fields : list (string * Value)) : string :=
  match fields with
  | [] => ""
  | (k, x) :: rest =>
      quoted k ++ ":" ++ encode x ++ (match rest with [] => "" | _ => "," end) ++ members rest
  end.

Definition mapValue (fields : list (string * Value)) : Value := Obj (members fields).

Definition jsonEncode (v : Value) : result string :=
  ok (encode v ++ String newline "").

Definition jsonDecode (bytes : string) (target : Value) : result Value :=
  if String.eqb bytes "" then fail (ErrorString "EOF") else ok (Str bytes).

(** Reads the object with the single member [message]. *)
Definition jsonDecodeAPIError (bytes : string) : result string :=
  let opening := "{" ++ quoted "message" ++ ":" ++ String dq "" in
  let closing := String dq "}" in
  if strings.HasPrefix bytes opening && strings.HasSuffix bytes closing
     && (String.length opening + String.length closing <=? String.length bytes)%nat
  then ok (strings.take (String.length bytes - String.length opening - String.length closing)
             (strings.drop (String.length opening) bytes))
  else fail (ErrorString "invalid character looking for beginning of value").

Definition asValues (v : Value) : option url.Values :=
  match v with
  | Form f => Some f
  | _ => None
  end.

Definition paramText (v : Value) : string :=
  match v with
  | Str s => url.QueryEscape s
  | _ => ""
  end.

Fixpoint createQueryString (params : list (string * Value)) : string :=
  match params with
  | [] => ""
  | (k, v) :: rest =>
      url.QueryEscape k ++ "=" ++ paramText v
        ++ (match rest with [] => "" | _ => "&" end) ++ createQueryString rest
  end.

Definition environment : Environment :=
  Build_Environment Value mapValue asValues jsonEncode jsonDecode jsonDecodeAPIError quoted
    createQueryString (Spec.checkResponse jsonDecodeAPIError) "no access token".

(** A transport that answers every request with the same response. *)
Definition respond (status : Z) (body : string) (closeErr : option error) : http.Client :=
  fun _ => ok (http.mkResponse status (http.mkBody body false closeErr)).

(** A transport that cannot reach the server. *)
Definition unreachable : http.Client :=
  fun _ => fail (ErrorString "dial tcp: connection refused").

Definition graph : url.URL :=
  Eval vm_compute in
    match url.Parse DefaultBaseURL with
    | inl u => u
    | inr _ => url.empty
    end.

Definition clientWith (transport : http.Client) (mType : string) : Client :=
  mkClient transport graph DefaultUserAgent mType (ok (mkToken "" "")).

Definition sessionWith (transport : http.Client) (mType token : string) : Session :=
  mkSession (clientWith transport mType) "/me" token "".

Definition invalidRecipient : string :=
  "{" ++ quoted "message" ++ ":" ++ quoted "invalid recipient" ++ "}".

Definition jsonType : string := "application/json".
Definition formType : string := "application/x-www-form-urlencoded".

(** Sessions without a token (JSON and form encoding) and with one. *)
Definition offline : Session := sessionWith (respond 200 "{}" None) jsonType "".
Definition offlineForm : Session := sessionWith (respond 200 "{}" None) formType "".
Definition online (status : Z) (body : string) : Session :=
  sessionWith (respond status body None) jsonType "token".


Definition closeFailed : error := ErrorString "close failed".

(** A decode target that holds nothing yet. *)
Definition nullTarget : Sink := Target (env := environment) Null.

(** What the transport answers in the examples. *)
Definition answer (status : Z) (body : string) (closeErr : option error) : http.Response :=
  http.mkResponse status (http.mkBody body false closeErr).

(** The request [NewRequest] builds for an absolute URL. *)
Definition absoluteRequest : http.Request :=
  Eval vm_compute in
    match http.NewRequest "GET" "https://example.com/x" "" with
    | inl r => http.mkRequest (http.Method r) (http.URL r)
                 [("Content-Type", jsonType); ("Accept", jsonType);
                  ("User-Agent", DefaultUserAgent)] ""
    | inr _ => http.mkRequest "" url.empty [] ""
    end.

(** The request for the user's profile. *)
Definition getMe : http.Request :=
  Eval vm_compute in
    match http.NewRequest "GET" (DefaultBaseURL ++ "/me") "" with
    | inl r => r
    | inr _ => http.mkRequest "" url.empty [] ""
    end.

End Double.


(** ** Reading a header *)

(** [Header.Values]: the values stored under [key], in order. *)
Definition headerValues (h : http.Header) (key : string) : list string :=
  map snd (filter (fun kv => String.eqb (fst kv) key) h).

(** * Properties *)

(** ** Client.Do *)

Section DoFacts.

Context {env : Environment}.

Lemma Close_closed (b : http.Body) : http.closed (snd (http.Close b)) = true.
Proof. reflexivity. Qed.

Lemma Do_deferred_closed (f : Frame) : http.closed (frame_body (Do_deferred f)) = true.
Proof. reflexivity. Qed.

(** After a round trip [Do] returns the response with the error that stands
    in the variable [err] at the return statement. *)
Lemma Do_round_trip (c : Client) (req : http.Request) (v : option Sink)
    (net0 : list http.Request) (response : http.Response) :
  client c req = inl response ->
  Do c req v net0 =
    mkOutcome (net0 ++ [req]) (frame_v (Do_statements response v))
      (returning (http.withBody response (frame_body (Do_deferred (Do_statements response v))))
                 (frame_err (Do_statements response v))).
Proof. intros H. unfold Do. rewrite H. reflexivity. Qed.

Lemma Do_transport_failure (c : Client) (req : http.Request) (v : option Sink)
    (net0 : list http.Request) (err : error) :
  client c req = inr err ->
  Do c req v net0 = mkOutcome (net0 ++ [req]) v (Failure None err).
Proof. intros H. unfold Do. rewrite H. reflexivity. Qed.

(** Every exit of [Do] after a round trip hands back a closed body. *)
Lemma Do_closes_body (c : Client) (req : http.Request) (v : option Sink)
    (net0 : list http.Request) (response : http.Response) :
  client c req = inl response ->
  exists r, returnedResponse (ret (Do c req v net0)) = Some r
            /\ http.closed (http.ResponseBody r) = true.
Proof.
  intros H. rewrite (Do_round_trip c req _ net0 response H). cbn [ret].
  exists (http.withBody response (frame_body (Do_deferred (Do_statements response v)))).
  split; [| reflexivity].
  destruct (frame_err (Do_statements response v)); reflexivity.
Qed.

(** The three failures after a round trip, each with the response. *)
Lemma Do_check_failure (c : Client) (req : http.Request) (v : option Sink)
    (net0 : list http.Request) (response : http.Response) (err : error) (b : http.Body) :
  client c req = inl response ->
  checkResponse response = (Some err, b) ->
  Do c req v net0 =
    mkOutcome (net0 ++ [req]) v
      (Failure (Some (http.withBody response (snd (http.Close b)))) err).
Proof.
  intros H Hc. rewrite (Do_round_trip c req _ net0 response H).
  unfold Do_statements. rewrite Hc. reflexivity.
Qed.

Lemma Do_copy_failure (c : Client) (req : http.Request) (net0 : list http.Request)
    (response : http.Response) (b b' : http.Body) (written : string)
    (writeErr : option error) (w : Sink) (err : error) :
  client c req = inl response ->
  checkResponse response = (None, b) ->
  Copy written writeErr b = (Some err, w, b') ->
  Do c req (Some (Writer written writeErr)) net0 =
    mkOutcome (net0 ++ [req]) (Some w)
      (Failure (Some (http.withBody response (snd (http.Close b')))) err).
Proof.
  intros H Hc Hw. rewrite (Do_round_trip c req _ net0 response H).
  unfold Do_statements. rewrite Hc, Hw. reflexivity.
Qed.

Lemma Do_decode_failure (c : Client) (req : http.Request) (net0 : list http.Request)
    (response : http.Response) (b b' : http.Body) (t : Value) (err : error) :
  client c req = inl response ->
  checkResponse response = (None, b) ->
  Decode (fun bytes => jsonDecode bytes t) b = (inr err, b') ->
  Do c req (Some (Target t)) net0 =
    mkOutcome (net0 ++ [req]) (Some (Target t))
      (Failure (Some (http.withBody response (snd (http.Close b')))) err).
Proof.
  intros H Hc Hd. rewrite (Do_round_trip c req _ net0 response H).
  unfold Do_statements. rewrite Hc, Hd. reflexivity.
Qed.


(** C5: a response whose status lies outside 200-299 makes [Do] return the
    response with a non-nil error, the one of [checkResponse], whatever sink
    was supplied, and the sink is left as it was. *)
Theorem Do_non2xx_is_error (c : Client) (req : http.Request) (v : option Sink)
    (net0 : list http.Request) (response : http.Response) :
  rejectsOther ->
  client c req = inl response ->
  is2xx (http.StatusCode response) = false ->
  exists err body,
    fst (checkResponse response) = Some err
    /\ ret (Do c req v net0) = Failure (Some (http.withBody response body)) err
    /\ sink (Do c req v net0) = v.
Proof.
  intros Hspec H Hstatus.
  destruct (Hspec response Hstatus) as [err Herr].
  destruct (checkResponse response) as [e b] eqn:Hc. cbn in Herr. subst e.
  rewrite (Do_check_failure c req v net0 response err b H Hc).
  exists err, (snd (http.Close b)). repeat split.
Qed.

(** C4: the body is closed, but a failure of [Close] does not reach the
    caller.  With a passing status and no sink, [Do] returns a nil error
    although [Close] failed with [closeErr]; that failure is only stored in
    the variable [err], after the results were set. *)
Theorem Do_drops_close_error (c : Client) (req : http.Request)
    (net0 : list http.Request) (response : http.Response) (closeErr : error) :
  client c req = inl response ->
  checkResponse response = (None, http.ResponseBody response) ->
  http.closeErr (http.ResponseBody response) = Some closeErr ->
  ret (Do c req None net0) =
    Success (http.withBody response
               (http.mkBody (http.unread (http.ResponseBody response)) true (Some closeErr)))
  /\ frame_err (Do_deferred (Do_statements response None)) = Some closeErr.
Proof.
  intros H Hc Hclose. rewrite (Do_round_trip c req _ net0 response H).
  unfold Do_statements. rewrite Hc. cbn.
  unfold Do_deferred, http.Close. cbn. rewrite Hclose. split; reflexivity.
Qed.

End DoFacts.

(** ** Client.NewRequest *)

Section NewRequestFacts.

Context {env : Environment}.

Lemma NewRequest_inv (c : Client) (method path : string) (body : option Value)
    (req : http.Request) :
  NewRequest c method path body = inl req ->
  exists pathURL payload hreq,
    url.Parse path = inl pathURL
    /\ encodeBody c body = inl payload
    /\ http.NewRequest method
         (if negb (String.eqb (url.Hostname pathURL) "") then path
          else url.String_ (baseURL c) ++ path) payload = inl hreq
    /\ http.URL req = http.URL hreq
    /\ http.Payload req = http.Payload hreq.
Proof.
  unfold NewRequest. intros H.
  destruct (url.Parse path) as [pathURL | e]; [| discriminate]. cbn [bind] in H.
  destruct (encodeBody c body) as [payload | e]; [| discriminate]. cbn [bind] in H.
  destruct (http.NewRequest method _ payload) as [hreq | e] eqn:Hreq; [| discriminate].
  cbn [bind] in H. injection H as <-.
  exists pathURL, payload, hreq. repeat split; try reflexivity. exact Hreq.
Qed.

Lemma http_NewRequest_inv (method rawurl body : string) (hreq : http.Request) :
  http.NewRequest method rawurl body = inl hreq ->
  http.requestURL rawurl = inl (http.URL hreq) /\ http.Payload hreq = body.
Proof.
  unfold http.NewRequest. intros H.
  destruct (negb (http.validMethod _)); [discriminate |].
  destruct (http.requestURL rawurl) as [u | e]; [| discriminate].
  cbn [bind] in H. injection H as <-. split; reflexivity.
Qed.

(** C6: the URL of the request [NewRequest] builds.  When the path parses
    with a non-empty host it is the path itself, whatever the base URL of the
    client is; otherwise it is the text of the base URL followed by the
    path. *)
Theorem NewRequest_url (c : Client) (method path : string) (body : option Value)
    (req : http.Request) :
  NewRequest c method path body = inl req ->
  exists pathURL,
    url.Parse path = inl pathURL
    /\ (url.Hostname pathURL <> "" ->
        http.requestURL path = inl (http.URL req)
        /\ forall base, NewRequest (withBaseURL c base) method path body = inl req)
    /\ (url.Hostname pathURL = "" ->
        http.requestURL (url.String_ (baseURL c) ++ path) = inl (http.URL req)).
Proof.
  intros H.
  destruct (NewRequest_inv c method path body req H)
    as (pathURL & payload & hreq & Hparse & _ & Hreq & Hurl & _).
  exists pathURL. split; [exact Hparse |]. split.
  - intros Hhost. apply String.eqb_neq in Hhost. rewrite Hhost in Hreq. cbn in Hreq.
    split.
    + rewrite Hurl. apply (http_NewRequest_inv _ _ _ _ Hreq).
    + intros base. rewrite <- H. unfold NewRequest. rewrite Hparse. cbn [bind].
      rewrite Hhost. reflexivity.
  - intros Hhost. rewrite Hhost in Hreq. cbn in Hreq.
    rewrite Hurl. apply (http_NewRequest_inv _ _ _ _ Hreq).
Qed.

(** With the JSON media type the payload is the JSON encoding of the body. *)
Lemma NewRequest_json_payload (c : Client) (method path : string) (b : Value)
    (req : http.Request) :
  mediaType c = "application/json" ->
  NewRequest c method path (Some b) = inl req ->
  jsonEncode b = inl (http.Payload req).
Proof.
  intros Hm H.
  destruct (NewRequest_inv c method path (Some b) req H)
    as (pathURL & payload & hreq & _ & Henc & Hreq & _ & Hpay).
  cbn in Henc. rewrite Hm in Henc. cbn in Henc. rewrite Henc, Hpay.
  f_equal. symmetry. apply (http_NewRequest_inv _ _ _ _ Hreq).
Qed.

(** With the form media type the body must be [url.Values]. *)
Lemma NewRequest_form_payload (c : Client) (method path : string) (b : Value)
    (req : http.Request) :
  mediaType c = "application/x-www-form-urlencoded" ->
  NewRequest c method path (Some b) = inl req ->
  exists v, asValues b = Some v /\ http.Payload req = url.Encode v.
Proof.
  intros Hm H.
  destruct (NewRequest_inv c method path (Some b) req H)
    as (pathURL & payload & hreq & _ & Henc & Hreq & _ & Hpay).
  cbn in Henc. rewrite Hm in Henc. cbn in Henc.
  destruct (asValues b) as [v |]; [| discriminate].
  exists v. split; [reflexivity |]. injection Henc as <-.
  rewrite Hpay. apply (http_NewRequest_inv _ _ _ _ Hreq).
Qed.

Lemma NewRequest_form_not_values (c : Client) (method path : string) (b : Value)
    (pathURL : url.URL) :
  mediaType c = "application/x-www-form-urlencoded" ->
  url.Parse path = inl pathURL ->
  asValues b = None ->
  NewRequest c method path (Some b) = inr errBodyNotValues.
Proof.
  intros Hm Hparse Hb. unfold NewRequest, encodeBody. rewrite Hparse. cbn [bind].
  rewrite Hm, Hb. reflexivity.
Qed.

(** C7: with a media type that is neither the JSON nor the form one, a
    non-nil body is not an error: [NewRequest] builds the request it builds
    for a nil body, and the body is not sent. *)
Theorem NewRequest_other_media_type (c : Client) (mType method path : string) (b : Value) :
  mType <> "application/json" ->
  mType <> "application/x-www-form-urlencoded" ->
  NewRequest (SetMediaType c mType) method path (Some b)
  = NewRequest (SetMediaType c mType) method path None.
Proof.
  intros Hj Hf. apply String.eqb_neq in Hj, Hf.
  unfold NewRequest, encodeBody. cbn [mediaType SetMediaType]. rewrite Hj, Hf. reflexivity.
Qed.

End NewRequestFacts.

(** ** Session.query and the verbs *)

Section QueryFacts.

Context {env : Environment}.

(** Every session [NewSession] creates has the base path /me and the tokens
    of the token source. *)
Lemma NewSession_basePath (c : Client) (s : Session) :
  NewSession c = inl s ->
  basePath s = "/me" /\ session_client s = c
  /\ exists token, tokenSource c = inl token /\ accessToken s = AccessToken token.
Proof.
  unfold NewSession. destruct (tokenSource c) as [token | e]; [| discriminate].
  cbn. intros H. injection H as <-. repeat split. exists token. split; reflexivity.
Qed.



Lemma query_with_token (s : Session) (method urlPath : string) (params : option Params)
    (data : option Value) (result : option Sink) (net0 : list http.Request)
    (path : string) (req : http.Request) :
  accessToken s <> "" ->
  requestPath s urlPath params = inl path ->
  NewRequest (session_client s) method path data = inl req ->
  query s method urlPath params data result net0
  = Do (session_client s) (authorize s req) result net0.
Proof.
  intros Htoken H Hreq. apply String.eqb_neq in Htoken.
  unfold query. rewrite H, Hreq, Htoken. reflexivity.
Qed.

(** Without a token [query] fails before the network, whatever else holds. *)
Lemma query_empty_token (s : Session) (method urlPath : string) (params : option Params)
    (data : option Value) (result : option Sink) (net0 : list http.Request) :
  accessToken s = "" ->
  query s method urlPath params data result net0
  = failed net0 result
      (match buildError s method urlPath params data with
       | Some err => err
       | None => ErrNoAccessToken
       end).
Proof.
  intros Htoken. unfold query, buildError.
  destruct (requestPath s urlPath params) as [path | e]; [| reflexivity].
  destruct (NewRequest (session_client s) method path data) as [req | e]; [| reflexivity].
  rewrite Htoken. reflexivity.
Qed.

Lemma query_fails_offline (s : Session) (method urlPath : string) (params : option Params)
    (data : option Value) (result : option Sink) (net0 : list http.Request) :
  accessToken s = "" ->
  failsOffline net0 (net (query s method urlPath params data result net0))
    (ret (query s method urlPath params data result net0))
    (buildError s method urlPath params data).
Proof.
  intros Htoken.
  rewrite (query_empty_token s method urlPath params data result net0 Htoken).
  split; reflexivity.
Qed.


(** C1 (as the code has it): with an empty access token no verb and no
    [Send] reaches the network, and each returns a nil response with an
    error: [ErrNoAccessToken] when the request can be built, and the error
    of building it otherwise. *)
Theorem empty_token_never_reaches_network (s : Session) :
  accessToken s = "" ->
  (forall url params result net0,
      failsOffline net0 (net (Get s url params result net0))
        (ret (Get s url params result net0))
        (buildError s http.MethodGet url params None))
  /\ (forall url data result net0,
      failsOffline net0 (net (Post s url data result net0))
        (ret (Post s url data result net0))
        (buildError s http.MethodPost url None data))
  /\ (forall url data result net0,
      failsOffline net0 (net (Patch s url data result net0))
        (ret (Patch s url data result net0))
        (buildError s http.MethodPatch url None data))
  /\ (forall url params result net0,
      failsOffline net0 (net (Delete s url params result net0))
        (ret (Delete s url params result net0))
        (buildError s http.MethodDelete url params None))
  /\ (forall message net0,
      Send s message net0
      = (net0, Some (match buildError s http.MethodPost "/sendMail" None
                             (Some (mapValue [("message", message)])) with
                     | Some err => err
                     | None => ErrNoAccessToken
                     end))).
Proof.
  intros Htoken. split; [| split; [| split; [| split]]].
  1-4: intros; apply (query_fails_offline s _ _ _ _ _ _ Htoken).
  intros message net0. unfold Send.
  rewrite (query_empty_token s http.MethodPost "/sendMail" None
             (Some (mapValue [("message", message)])) None net0 Htoken).
  reflexivity.
Qed.

End QueryFacts.

(** ** Session.Send *)

Section SendFacts.

Context {env : Environment}.

(** What [Send] does once the request went out and a response came back. *)
Lemma Send_round_trip (s : Session) (message : Value) (net0 : list http.Request)
    (path : string) (req : http.Request) (response : http.Response) :
  accessToken s <> "" ->
  requestPath s "/sendMail" None = inl path ->
  NewRequest (session_client s) http.MethodPost path
             (Some (mapValue [("message", message)])) = inl req ->
  client (session_client s) (authorize s req) = inl response ->
  checkResponse response = (None, http.ResponseBody response) ->
  snd (Send s message net0) =
    if negb (http.StatusCode response =? http.StatusAccepted)%Z
    then Some (WrapError (sendUnparsedText (http.StatusCode response)
                                           http.errReadOnClosedResBody)
                         http.errReadOnClosedResBody)
    else None.
Proof.
  intros Htoken Hpath Hreq Hdo Hcheck. unfold Send.
  rewrite (query_with_token s _ _ _ _ _ net0 path req Htoken Hpath Hreq).
  rewrite (Do_round_trip _ _ _ _ response Hdo).
  unfold Do_statements. rewrite Hcheck. cbn.
  destruct (negb (http.StatusCode response =? http.StatusAccepted)%Z); reflexivity.
Qed.

(** Status 202 is success. *)
Lemma Send_accepted (s : Session) (message : Value) (net0 : list http.Request)
    (path : string) (req : http.Request) (response : http.Response) :
  passes2xx ->
  accessToken s <> "" ->
  requestPath s "/sendMail" None = inl path ->
  NewRequest (session_client s) http.MethodPost path
             (Some (mapValue [("message", message)])) = inl req ->
  client (session_client s) (authorize s req) = inl response ->
  http.StatusCode response = http.StatusAccepted ->
  snd (Send s message net0) = None.
Proof.
  intros Hspec Htoken Hpath Hreq Hdo Hstatus.
  rewrite (Send_round_trip s message net0 path req response Htoken Hpath Hreq Hdo).
  - rewrite Hstatus. reflexivity.
  - apply Hspec. rewrite Hstatus. reflexivity.
Qed.

(** [Send] returns nil only for a response with status 202. *)
Lemma Send_nil_only_accepted (s : Session) (message : Value) (net0 : list http.Request) :
  snd (Send s message net0) = None ->
  exists path req response,
    requestPath s "/sendMail" None = inl path
    /\ NewRequest (session_client s) http.MethodPost path
                  (Some (mapValue [("message", message)])) = inl req
    /\ client (session_client s) (authorize s req) = inl response
    /\ http.StatusCode response = http.StatusAccepted.
Proof.
  unfold Send, query.
  destruct (requestPath s "/sendMail" None) as [path | e] eqn:Hpath; [| discriminate].
  destruct (NewRequest _ _ path _) as [req | e] eqn:Hreq; [| discriminate].
  destruct (String.eqb (accessToken s) ""); [discriminate |].
  unfold Do.
  destruct (client (session_client s) (authorize s req)) as [response | e] eqn:Hdo;
    [| discriminate].
  cbn [ret net].
  destruct (frame_err (Do_statements response None)); [discriminate |]. cbn.
  destruct (http.StatusCode response =? http.StatusAccepted)%Z eqn:Hs; cbn.
  - intros _. exists path, req, response.
    split; [reflexivity |]. split; [exact Hreq |]. split; [exact Hdo |].
    apply Z.eqb_eq. exact Hs.
  - discriminate.
Qed.

(** A status that [checkResponse] rejects: [Send] returns that error as it
    is, and does not decode the body itself. *)
Lemma Send_check_failure (s : Session) (message : Value) (net0 : list http.Request)
    (path : string) (req : http.Request) (response : http.Response)
    (err : error) (b : http.Body) :
  accessToken s <> "" ->
  requestPath s "/sendMail" None = inl path ->
  NewRequest (session_client s) http.MethodPost path
             (Some (mapValue [("message", message)])) = inl req ->
  client (session_client s) (authorize s req) = inl response ->
  checkResponse response = (Some err, b) ->
  snd (Send s message net0) = Some err.
Proof.
  intros Htoken Hpath Hreq Hdo Hcheck. unfold Send.
  rewrite (query_with_token s _ _ _ _ _ net0 path req Htoken Hpath Hreq).
  rewrite (Do_check_failure _ _ _ _ response err b Hdo Hcheck). reflexivity.
Qed.


End SendFacts.

(** ** The path handed to NewRequest *)

Section PathFacts.

Context {env : Environment}.

(** *** Strings and lists of bytes *)

Lemma append_nil_r (s : string) : s ++ "" = s.
Proof. induction s; cbn; congruence. Qed.

Lemma append_assoc (a b c : string) : (a ++ b) ++ c = a ++ (b ++ c).
Proof. induction a; cbn; congruence. Qed.

Lemma string_of_list_ascii_app (l1 l2 : list ascii) :
  string_of_list_ascii (l1 ++ l2) = string_of_list_ascii l1 ++ string_of_list_ascii l2.
Proof. induction l1; cbn; congruence. Qed.

Lemma list_ascii_of_string_app (a b : string) :
  list_ascii_of_string (a ++ b) = (list_ascii_of_string a ++ list_ascii_of_string b)%list.
Proof. induction a; cbn; congruence. Qed.

Lemma all_app (p : ascii -> bool) (a b : string) :
  strings.all p (a ++ b) = strings.all p a && strings.all p b.
Proof. induction a; cbn; [reflexivity |]. rewrite IHa. apply andb_assoc. Qed.

Lemma all_impl (p q : ascii -> bool) (s : string) :
  (forall c, p c = true -> q c = true) ->
  strings.all p s = true -> strings.all q s = true.
Proof.
  intros Hpq. induction s as [| c s IH]; cbn; [reflexivity |].
  intros H. apply andb_true_iff in H as [Hc Hs]. rewrite (Hpq c Hc), (IH Hs). reflexivity.
Qed.

Lemma plainByte_pathByte (c : ascii) : plainByte c = true -> pathByte c = true.
Proof. unfold plainByte. intros H. apply andb_true_iff in H. tauto. Qed.

Lemma plainByte_not_slash (c : ascii) : plainByte c = true -> Ascii.eqb c "/" = false.
Proof.
  unfold plainByte. intros H. apply andb_true_iff in H as [_ H].
  apply negb_true_iff. exact H.
Qed.

Lemma pathByte_not_percent (c : ascii) : pathByte c = true -> Ascii.eqb c "%" = false.
Proof.
  intros H. destruct (Ascii.eqb c "%") eqn:E; [| reflexivity].
  apply Ascii.eqb_eq in E. subst c. discriminate H.
Qed.

(** *** Elements of a plain path *)

Lemma plainElement_inv (e : string) :
  plainElement e = true ->
  String.eqb e "" = false /\ String.eqb e "." = false /\ String.eqb e ".." = false
  /\ strings.all plainByte e = true.
Proof.
  unfold plainElement. intros H.
  repeat (apply andb_true_iff in H as [H ?]).
  repeat split; try (apply negb_true_iff; assumption); assumption.
Qed.

Lemma joinElements_cons (e e' : string) (rest : list string) :
  joinElements (e :: e' :: rest) = e ++ "/" ++ joinElements (e' :: rest).
Proof. reflexivity. Qed.

Lemma joinElements_pathBytes (es : list string) :
  forallb plainElement es = true -> strings.all pathByte (joinElements es) = true.
Proof.
  induction es as [| e [| e' rest] IH]; intros H; [reflexivity | |].
  - cbn in H. apply andb_true_iff in H as [He _].
    apply plainElement_inv in He as (_ & _ & _ & He).
    cbn. apply (all_impl plainByte); [apply plainByte_pathByte | exact He].
  - rewrite joinElements_cons. cbn [forallb] in H. apply andb_true_iff in H as [He H].
    apply plainElement_inv in He as (_ & _ & _ & He).
    rewrite !all_app. rewrite (all_impl plainByte pathByte e plainByte_pathByte He).
    cbn [forallb] in IH. rewrite (IH H). reflexivity.
Qed.

Lemma joinElements_nonempty (es : list string) :
  es <> [] -> forallb plainElement es = true -> String.eqb (joinElements es) "" = false.
Proof.
  destruct es as [| e rest]; [congruence |]. intros _ H.
  cbn [forallb] in H. apply andb_true_iff in H as [He _].
  apply plainElement_inv in He as (He & _).
  destruct e as [| c e]; [discriminate He |].
  destruct rest; reflexivity.
Qed.

(** *** path.Clean on a plain path *)

Lemma w_append (b : path.lazybuf) (s : string) :
  path.w (path.append b s) = String.length s + path.w b.
Proof.
  unfold path.w, path.append. cbn [path.out].
  rewrite length_app, length_rev. f_equal.
  induction s; cbn; congruence.
Qed.

Lemma scan_bytes (rooted : bool) (e rest : string) (cur : list ascii) (b : path.lazybuf) :
  strings.all plainByte e = true ->
  path.scan rooted (e ++ rest) cur b
  = path.scan rooted rest (rev (list_ascii_of_string e) ++ cur)%list b.
Proof.
  revert cur. induction e as [| c e IH]; intros cur H; [reflexivity |].
  cbn in H. apply andb_true_iff in H as [Hc He].
  cbn [append path.scan]. rewrite (plainByte_not_slash c Hc).
  rewrite (IH _ He). cbn [list_ascii_of_string rev]. rewrite <- app_assoc. reflexivity.
Qed.

Lemma element_read (e : string) :
  string_of_list_ascii (rev (rev (list_ascii_of_string e) ++ [])) = e.
Proof. rewrite app_nil_r, rev_involutive. apply string_of_list_ascii_of_string. Qed.

Lemma w_written (b : path.lazybuf) (s : string) :
  path.w (written b s) = String.length s + path.w b.
Proof. apply w_append. Qed.

Lemma written_written (b : path.lazybuf) (s t : string) :
  written (written b s) t = written b (s ++ t).
Proof.
  unfold written. cbn [path.out path.dotdot].
  rewrite list_ascii_of_string_app, rev_app_distr, <- app_assoc. reflexivity.
Qed.

Lemma element_plain (b : path.lazybuf) (e : string) :
  plainElement e = true ->
  path.element true b e = written b (separator b ++ e).
Proof.
  intros He. apply plainElement_inv in He as (H0 & H1 & H2 & _).
  unfold path.element, separator. rewrite H0, H1, H2. cbn [andb negb orb].
  rewrite orb_false_r.
  destruct (path.w b =? 1)%nat; cbn [negb]; cbv iota.
  - reflexivity.
  - unfold path.append. cbn [path.out path.dotdot].
    unfold written. cbn [append list_ascii_of_string rev app].
    rewrite <- app_assoc. reflexivity.
Qed.

Lemma separator_written (b : path.lazybuf) (s : string) :
  String.eqb s "" = false ->
  1 <= path.w b ->
  separator (written b s) = "/".
Proof.
  intros Hs Hw. unfold separator. rewrite w_written.
  destruct s as [| c s]; [discriminate Hs |].
  replace (String.length (String c s) + path.w b =? 1)%nat with false; [reflexivity |].
  symmetry. apply Nat.eqb_neq. cbn. lia.
Qed.

Lemma separator_after_element (b : path.lazybuf) (e : string) :
  plainElement e = true ->
  1 <= path.w b ->
  separator (written b (separator b ++ e)) = "/".
Proof.
  intros He Hw. apply plainElement_inv in He as (H0 & _).
  apply separator_written; [| exact Hw].
  destruct e as [| c e]; [discriminate H0 |].
  unfold separator. destruct (path.w b =? 1)%nat; reflexivity.
Qed.

(** Scanning the elements of a plain path that a slash follows. *)
Lemma scan_join (es : list string) (b : path.lazybuf) (rest : string) :
  es <> [] ->
  forallb plainElement es = true ->
  1 <= path.w b ->
  path.scan true (joinElements es ++ String "/" rest) [] b
  = path.scan true rest [] (written b (separator b ++ joinElements es)).
Proof.
  revert b. induction es as [| e [| e' tl] IH]; intros b Hne H Hw; [congruence | |].
  - cbn in H. apply andb_true_iff in H as [He _].
    pose proof (plainElement_inv e He) as (_ & _ & _ & Hb).
    cbn [joinElements]. rewrite (scan_bytes true e _ [] b Hb).
    cbn [path.scan]. cbn [Ascii.eqb Bool.eqb].
    rewrite element_read, (element_plain b e He). reflexivity.
  - cbn [forallb] in H. apply andb_true_iff in H as [He H].
    pose proof (plainElement_inv e He) as (_ & _ & _ & Hb).
    rewrite joinElements_cons, !append_assoc.
    rewrite (scan_bytes true e _ [] b Hb).
    change ("/" ++ joinElements (e' :: tl) ++ String "/" rest)
      with (String "/" (joinElements (e' :: tl) ++ String "/" rest)).
    cbn [path.scan]. cbn [Ascii.eqb Bool.eqb].
    rewrite element_read, (element_plain b e He).
    rewrite (IH (written b (separator b ++ e))).
    + rewrite (separator_after_element b e He Hw), written_written, !append_assoc.
      reflexivity.
    + discriminate.
    + exact H.
    + rewrite w_written. lia.
Qed.

Lemma scan_trailing_slash (rooted : bool) (s : string) (cur : list ascii)
    (b : path.lazybuf) :
  path.scan rooted (s ++ "/") cur b = path.scan rooted s cur b.
Proof.
  revert cur b. induction s as [| c s IH]; intros cur b; [reflexivity |].
  cbn [append path.scan]. destruct (Ascii.eqb c "/"); apply IH.
Qed.

Lemma scan_elements (es : list string) (b : path.lazybuf) :
  es <> [] ->
  forallb plainElement es = true ->
  1 <= path.w b ->
  path.scan true (joinElements es) [] b = written b (separator b ++ joinElements es).
Proof.
  intros Hne H Hw.
  rewrite <- (scan_trailing_slash true (joinElements es) [] b).
  rewrite (scan_join es b "" Hne H Hw). reflexivity.
Qed.

(** [path.Clean] leaves a rooted plain path joined to a plain path as it is,
    but for a doubled slash between the two. *)
Lemma Clean_joined (bs es : list string) (lead : bool) :
  bs <> [] -> forallb plainElement bs = true ->
  es <> [] -> forallb plainElement es = true ->
  path.Clean (plainPath true bs ++ "/" ++ plainPath lead es)
  = plainPath true bs ++ "/" ++ joinElements es.
Proof.
  intros Hbs Hb Hes He.
  pose (b0 := path.mkbuf ["/"%char] 1).
  pose (b1 := written b0 (joinElements bs)).
  assert (Hscan : path.scan true (plainPath true bs ++ "/" ++ plainPath lead es) [] b0
                  = written b1 ("/" ++ joinElements es)).
  { change (plainPath true bs ++ "/" ++ plainPath lead es)
      with (String "/" (joinElements bs ++ String "/" (plainPath lead es))).
    change (path.scan true
              (String "/" (joinElements bs ++ String "/" (plainPath lead es))) [] b0)
      with (path.scan true (joinElements bs ++ String "/" (plainPath lead es)) [] b0).
    rewrite (scan_join bs b0 _ Hbs Hb); [| cbn; lia].
    change (written b0 (separator b0 ++ joinElements bs)) with b1.
    assert (Hlead : path.scan true (plainPath lead es) [] b1
                    = path.scan true (joinElements es) [] b1)
      by (destruct lead; reflexivity).
    rewrite Hlead, (scan_elements es b1 Hes He).
    - replace (separator b1) with "/"; [reflexivity |].
      symmetry. apply separator_written; [| cbn; lia].
      apply joinElements_nonempty; assumption.
    - unfold b1, b0. rewrite w_written. cbn. lia. }
  change (path.Clean (plainPath true bs ++ "/" ++ plainPath lead es))
    with (let b := path.scan true (plainPath true bs ++ "/" ++ plainPath lead es) [] b0 in
          if (path.w b =? 0)%nat then "." else string_of_list_ascii (rev (path.out b))).
  rewrite Hscan. cbv zeta.
  replace (path.w (written b1 ("/" ++ joinElements es)) =? 0)%nat with false.
  - unfold b1, b0. rewrite written_written. unfold written. cbn [path.out].
    rewrite rev_app_distr, rev_involutive, string_of_list_ascii_app.
    rewrite string_of_list_ascii_of_string. reflexivity.
  - symmetry. apply Nat.eqb_neq. rewrite w_written. cbn. lia.
Qed.

(** *** Trailing slashes *)

Lemma HasSuffix_slash_app (a b : string) :
  String.eqb b "" = false ->
  strings.HasSuffix (a ++ b) "/" = strings.HasSuffix b "/".
Proof.
  intros Hb. induction a as [| c a IH]; [reflexivity |].
  cbn [append strings.HasSuffix]. rewrite IH.
  replace (String.eqb (String c (a ++ b)) "/") with false; [reflexivity |].
  symmetry. apply String.eqb_neq. intros E. injection E as _ E.
  destruct a; cbn in E; [subst b |]; discriminate.
Qed.

Lemma HasSuffix_slash_plain (e : string) :
  strings.all plainByte e = true -> strings.HasSuffix e "/" = false.
Proof.
  induction e as [| c e IH]; intros H; [reflexivity |].
  cbn in H. apply andb_true_iff in H as [Hc He].
  cbn [strings.HasSuffix]. rewrite (IH He), orb_false_r.
  apply String.eqb_neq. intros E. injection E as E _. subst c. discriminate Hc.
Qed.

Lemma plainPath_no_trailing_slash (lead : bool) (es : list string) :
  es <> [] ->
  forallb plainElement es = true ->
  strings.HasSuffix (plainPath lead es) "/" = false.
Proof.
  intros Hne H. unfold plainPath.
  rewrite (HasSuffix_slash_app _ _ (joinElements_nonempty es Hne H)).
  clear lead. induction es as [| e [| e' rest] IH]; [congruence | |].
  - cbn in H. apply andb_true_iff in H as [He _].
    apply plainElement_inv in He as (_ & _ & _ & Hb). apply HasSuffix_slash_plain, Hb.
  - cbn [forallb] in H. apply andb_true_iff in H as [_ H].
    rewrite joinElements_cons.
    assert (Hrest : String.eqb (joinElements (e' :: rest)) "" = false)
      by (apply joinElements_nonempty; [discriminate | exact H]).
    rewrite HasSuffix_slash_app.
    + rewrite (HasSuffix_slash_app "/" _ Hrest). apply IH; [discriminate | exact H].
    + destruct (joinElements (e' :: rest)); reflexivity.
Qed.

(** *** Escaping a path that needs none *)

Lemma unescapeCheck_pathBytes (p : string) :
  strings.all pathByte p = true -> url.unescapeCheck p url.encodePath = None.
Proof.
  induction p as [| c p IH]; intros H; [reflexivity |].
  cbn in H. apply andb_true_iff in H as [Hc Hp].
  cbn [url.unescapeCheck]. rewrite (pathByte_not_percent c Hc). cbn. apply IH, Hp.
Qed.

Lemma unescapeDecode_pathBytes (p : string) :
  strings.all pathByte p = true -> url.unescapeDecode p url.encodePath = p.
Proof.
  induction p as [| c p IH]; intros H; [reflexivity |].
  cbn in H. apply andb_true_iff in H as [Hc Hp].
  cbn [url.unescapeDecode]. rewrite (pathByte_not_percent c Hc), (IH Hp).
  destruct (Ascii.eqb c "+") eqn:E; [| reflexivity].
  apply Ascii.eqb_eq in E. subst c. reflexivity.
Qed.

Lemma unescape_pathBytes (p : string) :
  strings.all pathByte p = true -> url.unescape p url.encodePath = inl p.
Proof.
  intros H. unfold url.unescape.
  rewrite (unescapeCheck_pathBytes p H), (unescapeDecode_pathBytes p H). reflexivity.
Qed.

Lemma escape_pathBytes (p : string) :
  strings.all pathByte p = true -> url.escape p url.encodePath = p.
Proof.
  induction p as [| c p IH]; intros H; [reflexivity |].
  cbn in H. apply andb_true_iff in H as [Hc Hp].
  cbn [url.escape]. unfold pathByte in Hc. apply negb_true_iff in Hc.
  rewrite Hc, (IH Hp). reflexivity.
Qed.

Lemma setPath_pathBytes (p0 p : string) :
  strings.all pathByte p = true ->
  url.setPath (pathURL p0 "") p = inl (pathURL p "").
Proof.
  intros H. unfold url.setPath. rewrite (unescape_pathBytes p H). cbn [bind].
  rewrite (escape_pathBytes p H), String.eqb_refl. reflexivity.
Qed.

Lemma EscapedPath_pathBytes (p q : string) :
  strings.all pathByte p = true -> url.EscapedPath (pathURL p q) = p.
Proof.
  intros H. unfold url.EscapedPath. cbn.
  rewrite (escape_pathBytes p H).
  destruct (String.eqb p "*") eqn:E; [| reflexivity].
  apply String.eqb_eq in E. congruence.
Qed.

Lemma String_pathBytes (p q : string) :
  strings.all pathByte p = true ->
  url.String_ (pathURL (String "/" p) q)
  = String "/" p ++ (if String.eqb q "" then "" else "?" ++ q).
Proof.
  intros H. unfold url.String_.
  rewrite (EscapedPath_pathBytes (String "/" p) q) by exact H.
  cbn. rewrite ?andb_false_r. cbn.
  destruct (String.eqb q ""); cbn; [rewrite append_nil_r |]; reflexivity.
Qed.

(** *** Parsing a rooted plain path *)

Lemma pathByte_not_ctl (c : ascii) :
  pathByte c = true -> negb ((Byte.code c <? 32)%nat || (Byte.code c =? 127)%nat) = true.
Proof.
  destruct c as [[] [] [] [] [] [] [] []]; vm_compute; intros H;
    first [reflexivity | discriminate H].
Qed.

Lemma pathByte_not (x : ascii) (Hx : pathByte x = false) (c : ascii) :
  pathByte c = true -> negb (Ascii.eqb c x) = true.
Proof.
  intros Hc. destruct (Ascii.eqb c x) eqn:E; [| reflexivity].
  apply Ascii.eqb_eq in E. congruence.
Qed.

Lemma Cut_absent (sep : ascii) (s : string) :
  strings.all (fun c => negb (Ascii.eqb c sep)) s = true ->
  strings.Cut s sep = (s, "", false).
Proof.
  induction s as [| c s IH]; intros H; [reflexivity |].
  cbn in H. apply andb_true_iff in H as [Hc Hs].
  cbn [strings.Cut]. apply negb_true_iff in Hc. rewrite Hc, (IH Hs). reflexivity.
Qed.

Lemma HasSuffix_absent (x : ascii) (s : string) :
  strings.all (fun c => negb (Ascii.eqb c x)) s = true ->
  strings.HasSuffix s (String x "") = false.
Proof.
  induction s as [| c s IH]; intros H; [reflexivity |].
  cbn in H. apply andb_true_iff in H as [Hc Hs].
  cbn [strings.HasSuffix]. rewrite (IH Hs), orb_false_r.
  apply String.eqb_neq. intros E. injection E as E _. subst c.
  rewrite Ascii.eqb_refl in Hc. discriminate Hc.
Qed.

Lemma Parse_rooted (p : string) :
  strings.all pathByte p = true ->
  strings.HasPrefix p "/" = false ->
  url.Parse (String "/" p) = inl (pathURL (String "/" p) "").
Proof.
  intros Hp Hslash.
  assert (Hall : strings.all pathByte (String "/" p) = true) by exact Hp.
  unfold url.Parse.
  rewrite (Cut_absent "#" _ (all_impl _ _ _ (pathByte_not "#" eq_refl) Hall)).
  unfold url.parse, url.stringContainsCTLByte.
  rewrite (all_impl _ _ _ pathByte_not_ctl Hall).
  change (url.getScheme (String "/" p)) with (@inl (string * string) error ("", String "/" p)).
  cbn [negb andb bind strings.ToLower].
  change (String.eqb (String "/" p) "*") with false.
  change (String.eqb (String "/" p) "") with false.
  rewrite (HasSuffix_absent "?" _ (all_impl _ _ _ (pathByte_not "?" eq_refl) Hall)).
  rewrite (Cut_absent "?" _ (all_impl _ _ _ (pathByte_not "?" eq_refl) Hall)).
  cbn [andb]. cbv beta iota zeta.
  change (strings.HasPrefix (String "/" p) "/") with true.
  change (strings.HasPrefix (String "/" p) "//") with (strings.HasPrefix p "/").
  rewrite Hslash. cbn [negb andb orb String.eqb].
  rewrite ?andb_false_r. cbv iota.
  change (url.mkURL "" "" None "" "" "" false false "" "" "") with (pathURL "" "").
  rewrite (setPath_pathBytes "" _ Hall). reflexivity.
Qed.

Lemma joinElements_head (e : string) (rest : list string) :
  plainElement e = true ->
  strings.HasPrefix (joinElements (e :: rest)) "/" = false.
Proof.
  intros He. apply plainElement_inv in He as (He & _ & _ & Hb).
  destruct e as [| c e]; [discriminate He |].
  cbn in Hb. apply andb_true_iff in Hb as [Hc _].
  assert (Hhead : exists tl, joinElements (String c e :: rest) = String c tl)
    by (destruct rest; eexists; reflexivity).
  destruct Hhead as [tl ->]. cbn. rewrite (plainByte_not_slash c Hc). reflexivity.
Qed.

(** *** Joining a plain path to a rooted plain path *)

Lemma JoinPath_plain (bs es : list string) (lead : bool) :
  bs <> [] -> forallb plainElement bs = true ->
  es <> [] -> forallb plainElement es = true ->
  url.JoinPath (pathURL (plainPath true bs) "") (plainPath lead es)
  = pathURL (plainPath true bs ++ "/" ++ joinElements es) "".
Proof.
  intros Hbs Hb Hes He.
  pose proof (joinElements_pathBytes bs Hb) as Hbytes.
  assert (Hbase : strings.all pathByte (plainPath true bs) = true) by exact Hbytes.
  unfold url.JoinPath. rewrite (EscapedPath_pathBytes _ "" Hbase).
  change (negb (strings.HasPrefix (plainPath true bs) "/")) with false. cbv iota.
  assert (Hjoin : path.Join [plainPath true bs; plainPath lead es]
                  = path.Clean (plainPath true bs ++ "/" ++ plainPath lead es)).
  { unfold path.Join, path.joinElems.
    change (String.eqb "" "") with true.
    change (String.eqb (plainPath true bs) "") with false.
    cbn [negb orb fold_right]. cbv iota.
    change ("" ++ plainPath true bs) with (plainPath true bs).
    change (String.eqb (plainPath true bs) "") with false. cbn [negb orb]. cbv iota.
    rewrite append_assoc. reflexivity. }
  rewrite Hjoin, (Clean_joined bs es lead Hbs Hb Hes He).
  rewrite (plainPath_no_trailing_slash lead es Hes He).
  cbn [andb]. cbv iota.
  rewrite setPath_pathBytes; [reflexivity |].
  rewrite !all_app, Hbase, (joinElements_pathBytes es He). reflexivity.
Qed.

Lemma trim_plainPath (lead : bool) (es : list string) :
  es <> [] ->
  forallb plainElement es = true ->
  trim (plainPath lead es) = joinElements es.
Proof.
  intros Hne H.
  assert (Hj : trim (joinElements es) = joinElements es).
  { destruct es as [| e rest]; [congruence |].
    cbn [forallb] in H. apply andb_true_iff in H as [He _].
    pose proof (joinElements_head e rest He) as Hhead.
    destruct (joinElements (e :: rest)) as [| c tl]; [reflexivity |].
    cbn in Hhead. cbn [trim]. destruct (Ascii.eqb c "/"); [discriminate Hhead | reflexivity]. }
  destruct lead; exact Hj.
Qed.

(** The path of a plain relative path under a rooted plain base path. *)
Lemma requestPath_joined (s : Session) (bs es : list string) (lead : bool)
    (params : option Params) :
  basePath s = plainPath true bs ->
  bs <> [] -> forallb plainElement bs = true ->
  es <> [] -> forallb plainElement es = true ->
  requestPath s (plainPath lead es) params
  = inl (basePath s ++ "/" ++ joinElements es
           ++ (if String.eqb (queryString params) "" then ""
               else "?" ++ queryString params)).
Proof.
  intros Hbase Hbs Hb Hes He. unfold requestPath. rewrite Hbase.
  assert (Hparse : url.Parse (plainPath true bs) = inl (pathURL (plainPath true bs) "")).
  { destruct bs as [| b bs']; [congruence |].
    apply Parse_rooted; [exact (joinElements_pathBytes _ Hb) |].
    cbn [forallb] in Hb. apply andb_true_iff in Hb as [Hb _].
    apply joinElements_head, Hb. }
  rewrite Hparse. cbn [bind].
  rewrite (JoinPath_plain bs es lead Hbs Hb Hes He).
  assert (Hbytes : strings.all pathByte (joinElements bs ++ "/" ++ joinElements es) = true).
  { rewrite !all_app, (joinElements_pathBytes bs Hb), (joinElements_pathBytes es He).
    reflexivity. }
  pose proof (String_pathBytes (joinElements bs ++ "/" ++ joinElements es)) as HS.
  change (String "/" (joinElements bs ++ "/" ++ joinElements es))
    with (plainPath true bs ++ "/" ++ joinElements es) in HS.
  destruct (String.eqb (queryString params) "") eqn:Hq; cbn [negb]; cbv iota.
  - rewrite (HS "" Hbytes). cbn [String.eqb]. rewrite !append_nil_r. reflexivity.
  - change (withRawQuery (pathURL (plainPath true bs ++ "/" ++ joinElements es) "")
                         (queryString params))
      with (pathURL (plainPath true bs ++ "/" ++ joinElements es) (queryString params)).
    rewrite (HS _ Hbytes), Hq, !append_assoc. reflexivity.
Qed.

(** C2 (as the code has it): under a base path that is a rooted plain path
    (as /me is), for a plain relative path [p], with or without a leading
    slash, and a non-nil parameter map [m], the path handed to [NewRequest]
    is the base path, one slash, [p] without its leading slash and, when the
    query string of [m] is not empty, a question mark and that query
    string. *)
Theorem requestPath_plain (s : Session) (b : string) (bs : list string) (lead : bool)
    (e : string) (rest : list string) (m : Params) :
  basePath s = plainPath true (b :: bs) ->
  forallb plainElement (b :: bs) = true ->
  forallb plainElement (e :: rest) = true ->
  requestPath s (plainPath lead (e :: rest)) (Some m)
  = inl (basePath s ++ "/" ++ trim (plainPath lead (e :: rest))
           ++ (if String.eqb (createQueryString m) "" then ""
               else "?" ++ createQueryString m)).
Proof.
  intros Hbase Hb H.
  assert (Hbs : b :: bs <> []) by discriminate.
  assert (Hne : e :: rest <> []) by discriminate.
  rewrite (requestPath_joined s (b :: bs) (e :: rest) lead (Some m) Hbase Hbs Hb Hne H).
  rewrite (trim_plainPath lead (e :: rest) Hne H). reflexivity.
Qed.

Lemma append_inj_l (a x y : string) : a ++ x = a ++ y -> x = y.
Proof. induction a; cbn; intros H; [exact H |]. injection H as H. auto. Qed.

Lemma cons_not_self (c : ascii) (q : string) : String c q <> q.
Proof.
  intros H. apply (f_equal String.length) in H. cbn in H. lia.
Qed.

(** C10 (as the code has it): under a base path that is a rooted plain path,
    for a plain relative path that starts with a slash, the two versions of
    [query] hand the same path to [NewRequest] exactly when there is no query
    string. *)
Theorem requestPath_agrees_with_concat (s : Session) (b : string) (bs : list string)
    (e : string) (rest : list string) (params : option Params) :
  basePath s = plainPath true (b :: bs) ->
  forallb plainElement (b :: bs) = true ->
  forallb plainElement (e :: rest) = true ->
  (requestPath s (plainPath true (e :: rest)) params
   = inl (requestPath_concat s (plainPath true (e :: rest)) params)
   <-> queryString params = "").
Proof.
  intros Hbase Hb H.
  assert (Hbs : b :: bs <> []) by discriminate.
  assert (Hne : e :: rest <> []) by discriminate.
  rewrite (requestPath_joined s (b :: bs) (e :: rest) true params Hbase Hbs Hb Hne H).
  unfold requestPath_concat.
  change (plainPath true (e :: rest)) with ("/" ++ joinElements (e :: rest)).
  rewrite (append_assoc "/" (joinElements (e :: rest)) (queryString params)).
  split.
  - intros E. injection E as E.
    apply (append_inj_l (basePath s)), (append_inj_l "/"),
          (append_inj_l (joinElements (e :: rest))) in E.
    destruct (String.eqb (queryString params) "") eqn:Hq.
    + apply String.eqb_eq. exact Hq.
    + exfalso. exact (cons_not_self _ _ E).
  - intros Hq. rewrite Hq. reflexivity.
Qed.

End PathFacts.

(** * The properties at concrete calls *)

Section Examples.

Local Existing Instance Double.environment.

Import Double.


Lemma Double_rejectsOther : rejectsOther.
Proof.
  intros r H. cbn. unfold Spec.checkResponse. rewrite H.
  destruct (Decode jsonDecodeAPIError (http.ResponseBody r)) as [[message | e] b];
    eexists; reflexivity.
Qed.

(** Without a token, [Get] of a well-formed path sends nothing and reports
    the missing token. *)
Lemma empty_token_never_reaches_network_witness :
  accessToken offline = ""
  /\ net (Get offline "/messages" None None []) = []
  /\ ret (Get offline "/messages" None None []) = Failure None ErrNoAccessToken.
Proof.
  split; [reflexivity |].
  exact (proj1 (empty_token_never_reaches_network (env := environment) offline eq_refl)
           "/messages" None None []).
Defined.

(** Without a token, [Post] through a client set to form encoding with a
    body that is not [url.Values] returns the error of the body, not
    [ErrNoAccessToken]. *)
Lemma empty_token_other_error :
  accessToken offlineForm = ""
  /\ ret (Post offlineForm "/messages" (Some (Str "hello")) None [])
     = Failure None errBodyNotValues
  /\ ret (Post offlineForm "/messages" (Some (Str "hello")) None [])
     <> Failure None ErrNoAccessToken.
Proof.
  split; [reflexivity |]. split; [reflexivity | discriminate].
Qed.

(** The path of [messages/42] with one parameter. *)
Lemma requestPath_plain_witness :
  basePath offline = "/me"
  /\ requestPath offline "messages/42" (Some [("a", Str "b")]) = inl "/me/messages/42?a=b".
Proof.
  split; [reflexivity |].
  exact (requestPath_plain (env := environment) offline "me" [] false "messages" ["42"]
           [("a", Str "b")] eq_refl eq_refl eq_refl).
Defined.

(** A path with a [..] element is cleaned: the path handed on is not the
    base path, a slash, the relative path and the query string. *)
Lemma requestPath_not_concatenation :
  requestPath offline "x/../y" (Some [("a", Str "b")]) = inl "/me/y?a=b"
  /\ requestPath offline "x/../y" (Some [("a", Str "b")])
     <> inl (basePath offline ++ "/" ++ trim "x/../y" ++ "?"
               ++ createQueryString [("a", Str "b")]).
Proof.
  split; [reflexivity | discriminate].
Qed.


(** A 200 response whose body fails to close: [Do] reports no error. *)
Lemma Do_drops_close_error_witness :
  ret (Do (clientWith (respond 200 "{}" (Some closeFailed)) jsonType) getMe None [])
  = Success (http.mkResponse 200 (http.mkBody "{}" true (Some closeFailed))).
Proof.
  apply (Do_drops_close_error (env := environment)
           (clientWith (respond 200 "{}" (Some closeFailed)) jsonType)
           getMe [] (answer 200 "{}" (Some closeFailed)) closeFailed);
    reflexivity.
Defined.

(** A 404 response: [Do] returns it with the error of the status, and the
    decode target is untouched. *)
Lemma Do_non2xx_is_error_witness :
  is2xx 404 = false
  /\ exists err body,
      fst (checkResponse (answer 404 invalidRecipient None)) = Some err
      /\ ret (Do (clientWith (respond 404 invalidRecipient None) jsonType) getMe
              (Some nullTarget) [])
      = Failure (Some (http.withBody (answer 404 invalidRecipient None) body)) err
      /\ sink (Do (clientWith (respond 404 invalidRecipient None) jsonType) getMe
                  (Some nullTarget) [])
         = Some nullTarget.
Proof.
  split; [reflexivity |].
  apply (Do_non2xx_is_error (env := environment)
           (clientWith (respond 404 invalidRecipient None) jsonType) getMe
           (Some nullTarget) [] (answer 404 invalidRecipient None)).
  - exact Double_rejectsOther.
  - reflexivity.
  - reflexivity.
Defined.


(** An absolute URL is requested as it stands; a relative path is appended
    to the base URL. *)
Lemma NewRequest_url_witness :
  (exists pathURL,
      url.Parse "https://example.com/x" = inl pathURL
      /\ (url.Hostname pathURL <> "" ->
          http.requestURL "https://example.com/x" = inl (http.URL absoluteRequest)
          /\ forall base,
              NewRequest (withBaseURL (clientWith unreachable jsonType) base)
                         "GET" "https://example.com/x" None = inl absoluteRequest)
      /\ (url.Hostname pathURL = "" ->
          http.requestURL (url.String_ graph ++ "https://example.com/x")
          = inl (http.URL absoluteRequest)))
  /\ url.Hostname (http.URL absoluteRequest) = "example.com"
  /\ url.Path (http.URL absoluteRequest) = "/x".
Proof.
  split; [| split; reflexivity].
  apply (NewRequest_url (env := environment) (clientWith unreachable jsonType)
           "GET" "https://example.com/x" None absoluteRequest).
  reflexivity.
Defined.

(** With the media type text/plain the body is dropped without an error. *)
Lemma NewRequest_other_media_type_witness :
  NewRequest (SetMediaType (clientWith unreachable jsonType) "text/plain")
             "POST" "/me/notes" (Some (Str "hello"))
  = NewRequest (SetMediaType (clientWith unreachable jsonType) "text/plain")
               "POST" "/me/notes" None
  /\ option_map http.Payload
       (match NewRequest (SetMediaType (clientWith unreachable jsonType) "text/plain")
                         "POST" "/me/notes" (Some (Str "hello")) with
        | inl req => Some req
        | inr _ => None
        end) = Some "".
Proof.
  split; [| reflexivity].
  apply (NewRequest_other_media_type (env := environment)
           (clientWith unreachable jsonType) "text/plain" "POST" "/me/notes" (Str "hello"));
    discriminate.
Defined.


(** What [JoinPath] does with other relative paths: a [..] element climbs out
    of the base path, and an element with a malformed escape is dropped
    without an error. *)
Lemma requestPath_dot_dot : requestPath offline "../calendar" None = inl "/calendar".
Proof. reflexivity. Qed.

Lemma requestPath_bad_escape : requestPath offline "messages/%zz" None = inl "/me".
Proof. reflexivity. Qed.

Lemma requestPath_escapes : requestPath offline "my folder" None = inl "/me/my%20folder".
Proof. reflexivity. Qed.

(** [/messages] without parameters: both versions hand on [/me/messages]. *)
Lemma requestPath_agrees_with_concat_witness :
  requestPath offline "/messages" None = inl (requestPath_concat offline "/messages" None)
  /\ requestPath_concat offline "/messages" None = "/me/messages".
Proof.
  split; [| reflexivity].
  apply (proj2 (requestPath_agrees_with_concat (env := environment)
                  offline "me" [] "messages" [] None eq_refl eq_refl eq_refl)).
  reflexivity.
Defined.

(** Without the leading slash, or with a query string, the versions differ. *)
Lemma requestPath_differs_from_concat :
  requestPath offline "messages" None = inl "/me/messages"
  /\ requestPath_concat offline "messages" None = "/memessages"
  /\ requestPath offline "/messages" (Some [("a", Str "b")]) = inl "/me/messages?a=b"
  /\ requestPath_concat offline "/messages" (Some [("a", Str "b")]) = "/me/messagesa=b".
Proof.
  repeat split.
Qed.

End Examples.

(** * Further properties *)

(** ** The request NewRequest builds (outlook.go 95-136) *)

Section RequestShape.

Context {env : Environment}.

(** What a successful [NewRequest] went through. *)
Lemma NewRequest_shape (c : Client) (method path : string) (body : option Value)
    (req : http.Request) :
  NewRequest c method path body = inl req ->
  exists pathURL payload u,
    url.Parse path = inl pathURL
    /\ encodeBody c body = inl payload
    /\ http.requestURL (if negb (String.eqb (url.Hostname pathURL) "") then path
                        else url.String_ (baseURL c) ++ path) = inl u
    /\ http.validMethod (if String.eqb method "" then "GET" else method) = true
    /\ req = http.mkRequest (if String.eqb method "" then "GET" else method) u
               [("Content-Type", mediaType c); ("Accept", mediaType_const);
                ("User-Agent", userAgent c)] payload.
Proof.
  unfold NewRequest. intros H.
  destruct (url.Parse path) as [pathURL | e]; [| discriminate]. cbn [bind] in H.
  destruct (encodeBody c body) as [payload | e]; [| discriminate]. cbn [bind] in H.
  unfold http.NewRequest in H.
  destruct (http.validMethod (if String.eqb method "" then "GET" else method)) eqn:Hm;
    [| discriminate].
  cbn [negb] in H.
  destruct (http.requestURL _) as [u | e] eqn:Hu; [| discriminate].
  cbn in H. injection H as <-.
  exists pathURL, payload, u. repeat split. exact Hu.
Qed.

(** X1: every request [NewRequest] builds carries exactly three headers:
    the media type of the client as Content-Type, application/json as
    Accept whatever that media type is, and the user agent; its method is
    the given one, GET for the empty method, and is a valid token. *)
Theorem NewRequest_headers (c : Client) (method path : string) (body : option Value)
    (req : http.Request) :
  NewRequest c method path body = inl req ->
  http.Headers req = [("Content-Type", mediaType c); ("Accept", "application/json");
                      ("User-Agent", userAgent c)]
  /\ http.Method req = (if String.eqb method "" then "GET" else method)
  /\ http.validMethod (http.Method req) = true.
Proof.
  intros H.
  destruct (NewRequest_shape c method path body req H)
    as (pathURL & payload & u & _ & _ & _ & Hm & ->).
  cbn. repeat split. exact Hm.
Qed.

(** X2: the payload of every request [NewRequest] builds: empty for a nil
    body; the JSON encoding of the body under the JSON media type; under
    the form media type the body is [url.Values] and the payload its
    encoding. *)
Theorem NewRequest_payload (c : Client) (method path : string) (body : option Value)
    (req : http.Request) :
  NewRequest c method path body = inl req ->
  match body with
  | None => http.Payload req = ""
  | Some b =>
      (mediaType c = "application/json" -> jsonEncode b = inl (http.Payload req))
      /\ (mediaType c = "application/x-www-form-urlencoded" ->
          exists v, asValues b = Some v /\ http.Payload req = url.Encode v)
  end.
Proof.
  intros H.
  destruct (NewRequest_shape c method path body req H)
    as (pathURL & payload & u & _ & Henc & _ & _ & ->).
  cbn [http.Payload]. destruct body as [b |]; cbn in Henc.
  - split; intros Hm; rewrite Hm in Henc; cbn in Henc.
    + exact Henc.
    + destruct (asValues b) as [v |]; [| discriminate].
      exists v. split; [reflexivity |]. injection Henc as <-. reflexivity.
  - injection Henc as <-. reflexivity.
Qed.

(** X3: the order in which [NewRequest] reports errors: a path that does
    not parse first, whatever the body; then a body that cannot be encoded;
    then a method that is no token. *)
Theorem NewRequest_error_order (c : Client) (method path : string) (body : option Value) :
  (forall err, url.Parse path = inr err -> NewRequest c method path body = inr err)
  /\ (forall pathURL err,
        url.Parse path = inl pathURL ->
        encodeBody c body = inr err ->
        NewRequest c method path body = inr err)
  /\ (forall pathURL payload,
        url.Parse path = inl pathURL ->
        encodeBody c body = inl payload ->
        http.validMethod (if String.eqb method "" then "GET" else method) = false ->
        NewRequest c method path body
        = inr (InvalidMethodError (if String.eqb method "" then "GET" else method))).
Proof.
  repeat split.
  - intros err H. unfold NewRequest. rewrite H. reflexivity.
  - intros pathURL err H Henc. unfold NewRequest. rewrite H. cbn [bind].
    rewrite Henc. reflexivity.
  - intros pathURL payload H Henc Hm. unfold NewRequest. rewrite H. cbn [bind].
    rewrite Henc. cbn [bind]. unfold http.NewRequest. rewrite Hm. reflexivity.
Qed.

End RequestShape.

(** ** What Do does with the body (outlook.go 146-171) *)

Section DoBody.

Context {env : Environment}.


(** X5: a response that passes the check, with a writer as sink: the bytes
    of the body are appended to what the writer holds, as they are, and no
    JSON decoding takes place. *)
Theorem Do_copies_to_writer (c : Client) (req : http.Request)
    (net0 : list http.Request) (response : http.Response) (b : http.Body)
    (written : string) :
  client c req = inl response ->
  checkResponse response = (None, b) ->
  http.closed b = false ->
  Do c req (Some (Writer written None)) net0
  = mkOutcome (net0 ++ [req]) (Some (Writer (written ++ http.unread b) None))
      (Success (http.withBody response (http.mkBody "" true (http.closeErr b)))).
Proof.
  intros H Hc Hopen. rewrite (Do_round_trip c req _ net0 response H).
  unfold Do_statements. rewrite Hc. unfold Copy, http.ReadAll. rewrite Hopen.
  unfold ok. cbv beta iota.
  destruct (String.eqb (http.unread b) "") eqn:E.
  - apply String.eqb_eq in E. rewrite E, append_nil_r. reflexivity.
  - reflexivity.
Qed.

End DoBody.

(** ** What query sends (session.go 36-65) *)

Section QuerySends.

Context {env : Environment}.

Lemma Do_net (c : Client) (req : http.Request) (v : option Sink)
    (net0 : list http.Request) :
  net (Do c req v net0) = (net0 ++ [req])%list.
Proof. unfold Do. destruct (client c req); reflexivity. Qed.

Lemma not_extended {A : Type} (l : list A) (x : A) : l <> (l ++ [x])%list.
Proof.
  intros E. apply (f_equal (@List.length A)) in E.
  rewrite length_app in E. cbn in E. lia.
Qed.

(** [query] either fails before the network or sends the request
    [NewRequest] built, with the token. *)
Lemma query_cases (s : Session) (method urlPath : string) (params : option Params)
    (data : option Value) (result : option Sink) (net0 : list http.Request) :
  (exists err, query s method urlPath params data result net0 = failed net0 result err)
  \/ (exists path req,
        accessToken s <> ""
        /\ requestPath s urlPath params = inl path
        /\ NewRequest (session_client s) method path data = inl req
        /\ query s method urlPath params data result net0
           = Do (session_client s) (authorize s req) result net0).
Proof.
  unfold query.
  destruct (requestPath s urlPath params) as [path | e]; [| left; eexists; reflexivity].
  destruct (NewRequest (session_client s) method path data) as [req | e] eqn:Hreq;
    [| left; eexists; reflexivity].
  destruct (String.eqb (accessToken s) "") eqn:Htoken; [left; eexists; reflexivity |].
  right. exists path, req. apply String.eqb_neq in Htoken. repeat split; assumption.
Qed.

(** X6: a call of [query] sends at most one request, and a request it sends
    carries the token of the session, which is not empty, as its only
    Authorization header, next to the headers of [NewRequest]; a call that
    sends nothing returns no response. *)
Theorem query_sends_authorized (s : Session) (method urlPath : string)
    (params : option Params) (data : option Value) (result : option Sink)
    (net0 : list http.Request) :
  (net (query s method urlPath params data result net0) = net0
   /\ exists err, ret (query s method urlPath params data result net0) = Failure None err)
  \/ (exists req,
        net (query s method urlPath params data result net0) = (net0 ++ [req])%list
        /\ accessToken s <> ""
        /\ headerValues (http.Headers req) "Authorization" = ["Bearer " ++ accessToken s]
        /\ headerValues (http.Headers req) "Content-Type" = [mediaType (session_client s)]
        /\ headerValues (http.Headers req) "Accept" = ["application/json"]
        /\ headerValues (http.Headers req) "User-Agent" = [userAgent (session_client s)]
        /\ http.Method req = (if String.eqb method "" then "GET" else method)).
Proof.
  destruct (query_cases s method urlPath params data result net0)
    as [[err ->] | (path & req & Htoken & _ & Hreq & ->)].
  - left. split; [reflexivity |]. exists err. reflexivity.
  - right. exists (authorize s req). rewrite Do_net.
    destruct (NewRequest_shape _ _ _ _ _ Hreq) as (pathURL & payload & u & _ & _ & _ & _ & ->).
    repeat split. exact Htoken.
Qed.


(** X8: a token source that yields an empty access token still gives a
    session, and no call of that session reaches the network. *)
Theorem NewSession_without_access_token (c : Client) (token : Token) :
  tokenSource c = inl token ->
  AccessToken token = "" ->
  exists s,
    NewSession c = inl s
    /\ forall method urlPath params data result net0,
        net (query s method urlPath params data result net0) = net0
        /\ exists err,
            ret (query s method urlPath params data result net0) = Failure None err.
Proof.
  intros Hsource Hempty. unfold NewSession. rewrite Hsource. cbn [bind].
  eexists. split; [reflexivity |].
  intros method urlPath params data result net0.
  rewrite query_empty_token by exact Hempty.
  split; [reflexivity |]. eexists. reflexivity.
Qed.

End QuerySends.

(** ** What Send sends (session.go 107-134) *)

Section SendSends.

Context {env : Environment}.

Lemma Send_net (s : Session) (message : Value) (net0 : list http.Request) :
  fst (Send s message net0)
  = net (query s http.MethodPost "/sendMail" None
           (Some (mapValue [("message", message)])) None net0).
Proof.
  unfold Send.
  destruct (ret (query s http.MethodPost "/sendMail" None _ None net0)) as [resp | r e];
    [| reflexivity].
  destruct (negb (http.StatusCode resp =? http.StatusAccepted)%Z); [| reflexivity].
  destruct (fst (Decode jsonDecodeAPIError (http.ResponseBody resp))); reflexivity.
Qed.

Lemma requestPath_sendMail (s : Session) :
  basePath s = "/me" -> requestPath s "/sendMail" None = inl "/me/sendMail".
Proof. intros H. unfold requestPath. rewrite H. reflexivity. Qed.

(** X9: under the base path /me and the JSON media type, a request [Send]
    sends is a POST to the base URL of the client followed by /me/sendMail,
    its payload is the JSON encoding of the map with the one key message,
    and it carries the token. *)
Theorem Send_posts_message (s : Session) (message : Value) (net0 : list http.Request)
    (req : http.Request) :
  basePath s = "/me" ->
  mediaType (session_client s) = "application/json" ->
  fst (Send s message net0) = (net0 ++ [req])%list ->
  http.Method req = "POST"
  /\ jsonEncode (mapValue [("message", message)]) = inl (http.Payload req)
  /\ http.requestURL (url.String_ (baseURL (session_client s)) ++ "/me/sendMail")
     = inl (http.URL req)
  /\ headerValues (http.Headers req) "Authorization" = ["Bearer " ++ accessToken s].
Proof.
  intros Hbase Hmedia Hnet. rewrite Send_net in Hnet.
  destruct (query_cases s http.MethodPost "/sendMail" None
              (Some (mapValue [("message", message)])) None net0)
    as [[err Hq] | (path & req0 & Htoken & Hpath & Hreq & Hq)]; rewrite Hq in Hnet.
  - cbn in Hnet. exfalso. exact (not_extended _ _ Hnet).
  - rewrite Do_net in Hnet. apply app_inv_head in Hnet. injection Hnet as <-.
    rewrite (requestPath_sendMail s Hbase) in Hpath. injection Hpath as <-.
    destruct (NewRequest_shape _ _ _ _ _ Hreq)
      as (pathURL & payload & u & Hparse & Henc & Hu & _ & ->).
    cbn in Hparse. injection Hparse as <-. cbn in Hu.
    cbn in Henc. rewrite Hmedia in Henc. cbn in Henc.
    repeat split; assumption.
Qed.

(** X10: under the form media type [Send] never sends: its body is a map,
    not [url.Values], and the error of the body is what it returns. *)
Theorem Send_form_media_type (s : Session) (message : Value) (net0 : list http.Request) :
  basePath s = "/me" ->
  mediaType (session_client s) = "application/x-www-form-urlencoded" ->
  asValues (mapValue [("message", message)]) = None ->
  Send s message net0 = (net0, Some errBodyNotValues).
Proof.
  intros Hbase Hmedia Hmap. unfold Send, query.
  rewrite (requestPath_sendMail s Hbase).
  unfold NewRequest, encodeBody.
  change (url.Parse "/me/sendMail")
    with (@inl url.URL error (pathURL "/me/sendMail" "")).
  cbn [bind]. rewrite Hmedia, Hmap. reflexivity.
Qed.

End SendSends.

(** ** The second version of query (session.go 168-189) *)

Section SecondVersion.

Context {env : Environment}.

(** The second [query], without a token: the error of [NewRequest] on the
    concatenated path, or [ErrNoAccessToken] when the request can be built. *)
Lemma query_concat_empty_token (s : Session) (method url : string)
    (params : option Params) (data : option Value) (result : option Sink)
    (net0 : list http.Request) :
  accessToken s = "" ->
  query_concat s method url params data result net0
  = failed net0 result
      (match NewRequest (session_client s) method
               (basePath s ++ url ++ queryString params) data with
       | inr err => err
       | inl _ => ErrNoAccessToken
       end).
Proof.
  intros Htoken. unfold query_concat, requestPath_concat.
  destruct (NewRequest _ _ _ _); [rewrite Htoken |]; reflexivity.
Qed.

(** Where the two versions hand the same path to [NewRequest], they do the
    same. *)
Lemma query_same_path (s : Session) (method urlPath : string) (params : option Params)
    (data : option Value) (result : option Sink) (net0 : list http.Request) :
  requestPath s urlPath params = inl (requestPath_concat s urlPath params) ->
  query s method urlPath params data result net0
  = query_concat s method urlPath params data result net0.
Proof. intros H. unfold query, query_concat. rewrite H. reflexivity. Qed.

(** Under a rooted plain base path, for a plain relative path that starts
    with a slash and without a query string, the two versions of [query]
    send the same requests and return the same. *)
Lemma query_versions_agree (s : Session) (b : string) (bs : list string)
    (e : string) (rest : list string) (method : string) (params : option Params)
    (data : option Value) (result : option Sink) (net0 : list http.Request) :
  basePath s = plainPath true (b :: bs) ->
  forallb plainElement (b :: bs) = true ->
  forallb plainElement (e :: rest) = true ->
  queryString params = "" ->
  query s method (plainPath true (e :: rest)) params data result net0
  = query_concat s method (plainPath true (e :: rest)) params data result net0.
Proof.
  intros Hbase Hb He Hq. apply query_same_path.
  rewrite (requestPath_joined s (b :: bs) (e :: rest) true params Hbase
             ltac:(discriminate) Hb ltac:(discriminate) He).
  unfold requestPath_concat. rewrite Hq.
  change (plainPath true (e :: rest)) with ("/" ++ joinElements (e :: rest)).
  cbn [String.eqb]. rewrite !append_assoc. reflexivity.
Qed.

End SecondVersion.

(** ** The query string and the host of a request (session.go 37-52) *)

Section QueryString.

Context {env : Environment}.

Lemma setPath_fields (u u' : url.URL) (p : string) :
  url.setPath u p = inl u' ->
  url.Scheme u' = url.Scheme u /\ url.Opaque u' = url.Opaque u
  /\ url.User u' = url.User u /\ url.Host u' = url.Host u
  /\ url.OmitHost u' = url.OmitHost u /\ url.ForceQuery u' = url.ForceQuery u
  /\ url.RawQuery u' = url.RawQuery u /\ url.Fragment u' = url.Fragment u
  /\ url.RawFragment u' = url.RawFragment u.
Proof.
  unfold url.setPath. destruct (url.unescape p url.encodePath); [| discriminate].
  cbn. intros H. injection H as <-. repeat split.
Qed.

Lemma JoinPath_fields (u : url.URL) (elem : string) :
  url.Scheme (url.JoinPath u elem) = url.Scheme u
  /\ url.Opaque (url.JoinPath u elem) = url.Opaque u
  /\ url.User (url.JoinPath u elem) = url.User u
  /\ url.Host (url.JoinPath u elem) = url.Host u
  /\ url.OmitHost (url.JoinPath u elem) = url.OmitHost u
  /\ url.ForceQuery (url.JoinPath u elem) = url.ForceQuery u
  /\ url.RawQuery (url.JoinPath u elem) = url.RawQuery u
  /\ url.Fragment (url.JoinPath u elem) = url.Fragment u
  /\ url.RawFragment (url.JoinPath u elem) = url.RawFragment u.
Proof.
  unfold url.JoinPath.
  destruct (url.setPath u _) as [u' |] eqn:H; [| repeat split].
  exact (setPath_fields u u' _ H).
Qed.

(** The text of a URL without query and fragment, with a query attached. *)
Lemma String_withRawQuery (u : url.URL) (q : string) :
  url.ForceQuery u = false ->
  url.RawQuery u = "" ->
  url.Fragment u = "" ->
  q <> "" ->
  url.String_ (withRawQuery u q) = url.String_ u ++ "?" ++ q.
Proof.
  intros Hf Hq Hfrag Hne. apply String.eqb_neq in Hne.
  unfold url.String_, withRawQuery, url.EscapedPath. cbn.
  rewrite Hf, Hq, Hfrag, Hne. cbn. reflexivity.
Qed.

(** X11: whatever the relative path is, a non-empty query string is attached
    after one question mark to the path that is handed on without
    parameters; an empty one leaves that path as it is.  (The base path is
    one without query and fragment, as /me.) *)
Theorem requestPath_appends_query (s : Session) (urlPath : string) (m : Params)
    (base : url.URL) :
  url.Parse (basePath s) = inl base ->
  url.ForceQuery base = false ->
  url.RawQuery base = "" ->
  url.Fragment base = "" ->
  exists p,
    requestPath s urlPath None = inl p
    /\ requestPath s urlPath (Some m)
       = inl (p ++ (if String.eqb (createQueryString m) "" then ""
                    else "?" ++ createQueryString m)).
Proof.
  intros Hparse Hf Hq Hfrag. unfold requestPath. rewrite Hparse. cbn [bind].
  exists (url.String_ (url.JoinPath base urlPath)). split; [reflexivity |].
  cbn [queryString].
  destruct (JoinPath_fields base urlPath) as (_ & _ & _ & _ & _ & Hf' & Hq' & Hfrag' & _).
  destruct (String.eqb (createQueryString m) "") eqn:E; cbn [negb].
  - rewrite append_nil_r. reflexivity.
  - unfold ok. f_equal. apply String_withRawQuery; try congruence.
    apply String.eqb_neq. exact E.
Qed.

End QueryString.

(** ** The host of a request for a plain path (session.go 36-65, outlook.go 96-105) *)

Section RequestHost.

Context {env : Environment}.

Lemma HasPrefix_take (p s : string) (n : nat) :
  strings.HasPrefix (strings.take n s) p = true -> strings.HasPrefix s p = true.
Proof.
  revert s n. induction p as [| d p IH]; intros s n H; [reflexivity |].
  destruct n as [| n]; [discriminate H |].
  destruct s as [| c s]; [discriminate H |].
  cbn in H |- *. apply andb_true_iff in H as [Hc H].
  rewrite Hc. exact (IH s n H).
Qed.

Lemma HasPrefix_Cut_before (sep : ascii) (p s : string) :
  strings.HasPrefix (fst (fst (strings.Cut s sep))) p = true ->
  strings.HasPrefix s p = true.
Proof.
  revert p. induction s as [| c s IH]; intros p H.
  - destruct p; [reflexivity | discriminate H].
  - cbn [strings.Cut] in H. destruct (Ascii.eqb c sep).
    + destruct p; [reflexivity | discriminate H].
    + destruct (strings.Cut s sep) as [[before after] found]. cbn [fst] in *.
      destruct p as [| d p]; [reflexivity |].
      cbn in H |- *. apply andb_true_iff in H as [Hc H].
      rewrite Hc. exact (IH p H).
Qed.

Lemma setFragment_Host (u u' : url.URL) (f : string) :
  url.setFragment u f = inl u' -> url.Host u' = url.Host u.
Proof.
  unfold url.setFragment. destruct (url.unescape f url.encodeFragment); [| discriminate].
  cbn. intros H. injection H as <-. reflexivity.
Qed.

Lemma setPath_Host (u u' : url.URL) (p : string) :
  url.setPath u p = inl u' -> url.Host u' = url.Host u.
Proof. intros H. apply (setPath_fields u u' p H). Qed.

(** A URL that starts with one slash, not two, has no host. *)
Lemma parse_no_host (r : string) (u : url.URL) :
  strings.HasPrefix r "/" = true ->
  strings.HasPrefix r "//" = false ->
  url.parse r false = inl u ->
  url.Host u = "".
Proof.
  intros Hslash Hdouble.
  destruct r as [| c r']; [discriminate Hslash |].
  cbn in Hslash. apply andb_true_iff in Hslash as [Hc _].
  apply Ascii.eqb_eq in Hc. subst c.
  unfold url.parse.
  destruct (url.stringContainsCTLByte (String "/" r')); [discriminate |].
  rewrite andb_false_r.
  change (String.eqb (String "/" r') "*") with false. cbv iota.
  change (url.getScheme (String "/" r'))
    with (@inl (string * string) error ("", String "/" r')).
  cbn [bind strings.ToLower].
  assert (Hrest : forall rest fq rq,
    strings.HasPrefix rest "//" = false ->
    (if negb (strings.HasPrefix rest "/") && negb (String.eqb "" "")
     then ok (url.mkURL "" rest None "" "" "" false fq rq "" "")
     else if negb (strings.HasPrefix rest "/") && false
     then fail (ErrorString "invalid URI for request")
     else if negb (strings.HasPrefix rest "/")
             && strings.Contains (fst (fst (strings.Cut rest "/"))) ":"
     then fail (ErrorString "first path segment in URL cannot contain colon")
     else if (negb (String.eqb "" "")
              || (negb false && negb (strings.HasPrefix rest "///")))
             && strings.HasPrefix rest "//"
     then
       let authority := strings.drop 2 rest in
       let '(authority, rest0) :=
         match strings.Index authority "/" with
         | Some i => (strings.take i authority, strings.drop i authority)
         | None => (authority, "")
         end in
       '(user, host) <- url.parseAuthority authority ;;
       url.setPath (url.mkURL "" "" user host "" "" false fq rq "" "") rest0
     else if negb (String.eqb "" "") && strings.HasPrefix rest "/"
     then url.setPath (url.mkURL "" "" None "" "" "" true fq rq "" "") rest
     else url.setPath (url.mkURL "" "" None "" "" "" false fq rq "" "") rest) = inl u ->
    url.Host u = "").
  { intros rest fq rq Hr. rewrite Hr. cbn [String.eqb negb andb orb].
    rewrite !andb_false_r. cbv iota.
    destruct (negb (strings.HasPrefix rest "/")
              && strings.Contains (fst (fst (strings.Cut rest "/"))) ":");
      [discriminate |].
    intros H. exact (setPath_Host _ _ _ H). }
  destruct (strings.HasSuffix (String "/" r') "?"
            && (strings.CountByte (String "/" r') "?" =? 1)%nat).
  - apply Hrest.
    destruct (strings.HasPrefix (strings.take _ (String "/" r')) "//") eqn:E; [| reflexivity].
    apply HasPrefix_take in E. congruence.
  - destruct (strings.Cut (String "/" r') "?") as [[before after] found] eqn:Hcut.
    apply Hrest.
    destruct (strings.HasPrefix before "//") eqn:E; [| reflexivity].
    assert (Hb : before = fst (fst (strings.Cut (String "/" r') "?")))
      by (rewrite Hcut; reflexivity).
    rewrite Hb in E. apply HasPrefix_Cut_before in E. congruence.
Qed.

Lemma Parse_no_host (r : string) (u : url.URL) :
  strings.HasPrefix r "/" = true ->
  strings.HasPrefix r "//" = false ->
  url.Parse r = inl u ->
  url.Hostname u = "".
Proof.
  intros Hslash Hdouble. unfold url.Parse.
  destruct (strings.Cut r "#") as [[r0 frag] found] eqn:Hcut.
  assert (H0 : r0 = fst (fst (strings.Cut r "#"))) by (rewrite Hcut; reflexivity).
  assert (Hslash0 : strings.HasPrefix r0 "/" = true).
  { destruct r as [| c r']; [discriminate Hslash |].
    cbn in Hslash. apply andb_true_iff in Hslash as [Hc _].
    apply Ascii.eqb_eq in Hc. subst c. rewrite H0. cbn.
    destruct (strings.Cut r' "#") as [[x y] z]. reflexivity. }
  assert (Hdouble0 : strings.HasPrefix r0 "//" = false).
  { destruct (strings.HasPrefix r0 "//") eqn:E; [| reflexivity].
    rewrite H0 in E. apply HasPrefix_Cut_before in E. congruence. }
  destruct (url.parse r0 false) as [u0 | e] eqn:Hp; [| discriminate].
  pose proof (parse_no_host r0 u0 Hslash0 Hdouble0 Hp) as Hhost.
  assert (Hname : forall v, url.Host v = "" -> url.Hostname v = "").
  { intros v Hv. unfold url.Hostname. rewrite Hv. reflexivity. }
  destruct (String.eqb frag "").
  - intros H. injection H as <-. apply Hname, Hhost.
  - destruct (url.setFragment u0 frag) as [u1 | e] eqn:Hf; [| discriminate].
    intros H. injection H as <-. apply Hname.
    rewrite (setFragment_Host _ _ _ Hf). exact Hhost.
Qed.

Lemma rooted_not_double_slash (b : string) (bs : list string) (x : string) :
  forallb plainElement (b :: bs) = true ->
  strings.HasPrefix (plainPath true (b :: bs) ++ x) "//" = false.
Proof.
  intros Hb.
  pose proof (joinElements_nonempty (b :: bs) ltac:(discriminate) Hb) as Hne.
  cbn [forallb] in Hb. apply andb_true_iff in Hb as [Hb _].
  pose proof (joinElements_head b bs Hb) as Hhead.
  change (plainPath true (b :: bs) ++ x) with (String "/" (joinElements (b :: bs) ++ x)).
  destruct (joinElements (b :: bs)) as [| c tl]; [discriminate Hne |].
  cbn in Hhead |- *. destruct (Ascii.eqb c "/"); [discriminate Hhead | reflexivity].
Qed.

(** X12: under a rooted plain base path, a request [query] sends for a plain
    relative path is addressed to the base URL of the client followed by
    base path, slash, relative path and the query string, whatever query
    string the parameters give: the relative path never replaces the host. *)
Theorem plain_path_request_url (s : Session) (b : string) (bs : list string)
    (lead : bool) (e : string) (rest : list string) (method : string)
    (params : option Params) (data : option Value) (result : option Sink)
    (net0 : list http.Request) (req : http.Request) :
  basePath s = plainPath true (b :: bs) ->
  forallb plainElement (b :: bs) = true ->
  forallb plainElement (e :: rest) = true ->
  net (query s method (plainPath lead (e :: rest)) params data result net0)
  = (net0 ++ [req])%list ->
  http.requestURL
    (url.String_ (baseURL (session_client s)) ++ basePath s ++ "/"
       ++ joinElements (e :: rest)
       ++ (if String.eqb (queryString params) "" then "" else "?" ++ queryString params))
  = inl (http.URL req).
Proof.
  intros Hbase Hb He Hnet.
  destruct (query_cases s method (plainPath lead (e :: rest)) params data result net0)
    as [[err Hq] | (path & req0 & _ & Hpath & Hreq & Hq)]; rewrite Hq in Hnet.
  - cbn in Hnet. exfalso. exact (not_extended _ _ Hnet).
  - rewrite Do_net in Hnet. apply app_inv_head in Hnet. injection Hnet as <-.
    rewrite (requestPath_joined s (b :: bs) (e :: rest) lead params Hbase
               ltac:(discriminate) Hb ltac:(discriminate) He) in Hpath.
    injection Hpath as <-.
    destruct (NewRequest_shape _ _ _ _ _ Hreq)
      as (pathURL & payload & u & Hparse & _ & Hu & _ & ->).
    cbn [authorize http.URL].
    assert (Hhost : url.Hostname pathURL = "").
    { apply (Parse_no_host _ _) with (3 := Hparse); rewrite Hbase.
      - reflexivity.
      - apply rooted_not_double_slash. exact Hb. }
    rewrite Hhost in Hu. cbn in Hu. exact Hu.
Qed.

End RequestHost.

(** ** The verbs (session.go 67-85) *)

Section Verbs.

Context {env : Environment}.

Lemma query_request (s : Session) (method urlPath : string) (params : option Params)
    (data : option Value) (result : option Sink) (net0 : list http.Request)
    (req : http.Request) :
  net (query s method urlPath params data result net0) = (net0 ++ [req])%list ->
  http.Method req = (if String.eqb method "" then "GET" else method)
  /\ encodeBody (session_client s) data = inl (http.Payload req).
Proof.
  intros Hnet.
  destruct (query_cases s method urlPath params data result net0)
    as [[err Hq] | (path & req0 & _ & _ & Hreq & Hq)]; rewrite Hq in Hnet.
  - cbn in Hnet. exfalso. exact (not_extended _ _ Hnet).
  - rewrite Do_net in Hnet. apply app_inv_head in Hnet. injection Hnet as <-.
    destruct (NewRequest_shape _ _ _ _ _ Hreq) as (pathURL & payload & u & _ & Henc & _ & _ & ->).
    split; [reflexivity | exact Henc].
Qed.

(** X13: a request a verb sends has the method of the verb, and the requests
    of [Get] and [Delete] have an empty payload, whatever the media type of
    the client is. *)
Theorem verbs_pin_method (s : Session) (url : string) (params : option Params)
    (data : option Value) (result : option Sink) (net0 : list http.Request)
    (req : http.Request) :
  (net (Get s url params result net0) = (net0 ++ [req])%list ->
   http.Method req = "GET" /\ http.Payload req = "")
  /\ (net (Delete s url params result net0) = (net0 ++ [req])%list ->
      http.Method req = "DELETE" /\ http.Payload req = "")
  /\ (net (Post s url data result net0) = (net0 ++ [req])%list ->
      http.Method req = "POST")
  /\ (net (Patch s url data result net0) = (net0 ++ [req])%list ->
      http.Method req = "PATCH").
Proof.
  unfold Get, Delete, Post, Patch.
  split; [| split; [| split]]; intros H;
    destruct (query_request _ _ _ _ _ _ _ _ H) as [Hm Henc];
    try exact Hm; split; try exact Hm; unfold encodeBody, ok in Henc; congruence.
Qed.

End Verbs.

(** ** Do and Send after the round trip (outlook.go 146-171, session.go 115-133) *)

Section AfterRoundTrip.

Context {env : Environment}.

(** X14: whatever the sink is and however [Do] ends after a round trip, the
    response it returns is the response of the transport with its body
    closed. *)
Theorem Do_returns_closed_body (c : Client) (req : http.Request) (v : option Sink)
    (net0 : list http.Request) (response : http.Response) :
  client c req = inl response ->
  exists body,
    returnedResponse (ret (Do c req v net0)) = Some (http.withBody response body)
    /\ http.closed body = true.
Proof.
  intros H. rewrite (Do_round_trip c req v net0 response H). cbn [ret].
  exists (frame_body (Do_deferred (Do_statements response v))).
  split; [| reflexivity].
  destruct (frame_err (Do_statements response v)); reflexivity.
Qed.

(** X15: when [Send] returns nil, it has sent exactly one request, and the
    transport answered that request with status 202. *)
Theorem Send_nil_means_accepted (s : Session) (message : Value)
    (net0 : list http.Request) :
  snd (Send s message net0) = None ->
  exists req response,
    fst (Send s message net0) = (net0 ++ [req])%list
    /\ client (session_client s) req = inl response
    /\ http.StatusCode response = 202%Z.
Proof.
  intros Hnil.
  destruct (Send_nil_only_accepted s message net0 Hnil)
    as (path & req & response & Hpath & Hreq & Hdo & Hstatus).
  exists (authorize s req), response. split; [| split; assumption].
  rewrite Send_net.
  destruct (query_cases s http.MethodPost "/sendMail" None
              (Some (mapValue [("message", message)])) None net0)
    as [[err Hq] | (path' & req' & _ & Hpath' & Hreq' & Hq)].
  - unfold Send in Hnil. rewrite Hq in Hnil. discriminate Hnil.
  - rewrite Hq, Do_net. congruence.
Qed.

(** X16: a response with status 202 that passes the check makes [Send]
    return nil, after the one request. *)
Theorem Send_202_is_nil (s : Session) (message : Value) (net0 : list http.Request)
    (path : string) (req : http.Request) (response : http.Response) :
  accessToken s <> "" ->
  requestPath s "/sendMail" None = inl path ->
  NewRequest (session_client s) http.MethodPost path
             (Some (mapValue [("message", message)])) = inl req ->
  client (session_client s) (authorize s req) = inl response ->
  checkResponse response = (None, http.ResponseBody response) ->
  http.StatusCode response = 202%Z ->
  Send s message net0 = ((net0 ++ [authorize s req])%list, None).
Proof.
  intros Htoken Hpath Hreq Hdo Hcheck Hstatus. unfold Send.
  rewrite (query_with_token s _ _ _ _ _ net0 path req Htoken Hpath Hreq).
  rewrite (Do_round_trip _ _ _ _ response Hdo).
  unfold Do_statements. rewrite Hcheck. cbn. rewrite Hstatus. reflexivity.
Qed.

(** X17: an error of the response check is what [Send] returns, as it is,
    after the one request; and an error of the transport likewise. *)
Theorem Send_returns_error_of_Do (s : Session) (message : Value)
    (net0 : list http.Request) (path : string) (req : http.Request) :
  accessToken s <> "" ->
  requestPath s "/sendMail" None = inl path ->
  NewRequest (session_client s) http.MethodPost path
             (Some (mapValue [("message", message)])) = inl req ->
  (forall response err b,
      client (session_client s) (authorize s req) = inl response ->
      checkResponse response = (Some err, b) ->
      Send s message net0 = ((net0 ++ [authorize s req])%list, Some err))
  /\ (forall err,
      client (session_client s) (authorize s req) = inr err ->
      Send s message net0 = ((net0 ++ [authorize s req])%list, Some err)).
Proof.
  intros Htoken Hpath Hreq. split.
  - intros response err b Hdo Hcheck. unfold Send.
    rewrite (query_with_token s _ _ _ _ _ net0 path req Htoken Hpath Hreq).
    rewrite (Do_check_failure _ _ _ _ response err b Hdo Hcheck). reflexivity.
  - intros err Hdo. unfold Send.
    rewrite (query_with_token s _ _ _ _ _ net0 path req Htoken Hpath Hreq).
    rewrite (Do_transport_failure _ _ _ _ err Hdo). reflexivity.
Qed.

End AfterRoundTrip.

(** * The further properties at concrete calls *)

Section FurtherExamples.

Local Existing Instance Double.environment.

Import Double.

(** A request built with the empty method. *)
Lemma NewRequest_headers_witness :
  NewRequest (clientWith unreachable jsonType) "" "https://example.com/x" None
  = inl absoluteRequest
  /\ http.Headers absoluteRequest
     = [("Content-Type", "application/json"); ("Accept", "application/json");
        ("User-Agent", "go-outlook/0.1.0")]
  /\ http.Method absoluteRequest = "GET".
Proof.
  split; [reflexivity |].
  destruct (NewRequest_headers (env := environment) (clientWith unreachable jsonType)
              "" "https://example.com/x" None absoluteRequest eq_refl) as (Hh & Hm & _).
  split; [exact Hh | exact Hm].
Defined.

(** A string as JSON body. *)
Lemma NewRequest_payload_witness :
  exists req,
    NewRequest (clientWith unreachable jsonType) "POST" "/me/notes" (Some (Str "hello"))
    = inl req
    /\ jsonEncode (Str "hello") = inl (http.Payload req).
Proof.
  eexists. split; [reflexivity |].
  refine (proj1 (NewRequest_payload (env := environment) (clientWith unreachable jsonType)
                   "POST" "/me/notes" (Some (Str "hello")) _ eq_refl) eq_refl).
Defined.

(** A path that does not parse, with a body the form encoding would refuse. *)
Lemma NewRequest_error_order_witness :
  NewRequest (clientWith unreachable formType) "GET" "%zz" (Some (Str "hello"))
  = inr (URLError "parse" "%zz" (EscapeError "%zz")).
Proof.
  apply (proj1 (NewRequest_error_order (env := environment)
                  (clientWith unreachable formType) "GET" "%zz" (Some (Str "hello")))).
  reflexivity.
Defined.


Lemma Do_copies_to_writer_witness :
  Do (clientWith (respond 200 "{}" None) jsonType) getMe
     (Some (Writer (env := environment) "saved: " None)) []
  = mkOutcome [getMe] (Some (Writer (env := environment) "saved: {}" None))
      (Success (http.mkResponse 200 (http.mkBody "" true None))).
Proof.
  apply (Do_copies_to_writer (env := environment)
           (clientWith (respond 200 "{}" None) jsonType) getMe []
           (answer 200 "{}" None) (http.mkBody "{}" false None) "saved: ");
    reflexivity.
Defined.


(** A token source with an empty access token. *)
Lemma NewSession_without_access_token_witness :
  exists s,
    NewSession (clientWith (respond 200 "{}" None) jsonType) = inl s
    /\ forall method urlPath params data result net0,
        net (query s method urlPath params data result net0) = net0
        /\ exists err,
            ret (query s method urlPath params data result net0) = Failure None err.
Proof.
  apply (NewSession_without_access_token (env := environment)
           (clientWith (respond 200 "{}" None) jsonType) (mkToken "" ""));
    reflexivity.
Defined.

(** The request of [Send]. *)
Lemma Send_posts_message_witness :
  exists req,
    fst (Send (online 202 "") (Str "hello") []) = [req]
    /\ http.Method req = "POST"
    /\ jsonEncode (mapValue [("message", Str "hello")]) = inl (http.Payload req)
    /\ http.requestURL "https://graph.microsoft.com/v1.0/me/sendMail" = inl (http.URL req)
    /\ headerValues (http.Headers req) "Authorization" = ["Bearer token"].
Proof.
  eexists. split; [reflexivity |].
  apply (Send_posts_message (env := environment) (online 202 "") (Str "hello") []);
    reflexivity.
Defined.

Lemma Send_form_media_type_witness :
  Send (sessionWith (respond 202 "" None) formType "token") (Str "hello") []
  = ([], Some errBodyNotValues).
Proof.
  apply (Send_form_media_type (env := environment)); reflexivity.
Defined.

(** The query string after a path that joining changes. *)
Lemma requestPath_appends_query_witness :
  exists p,
    requestPath offline "x/../y z" None = inl p
    /\ requestPath offline "x/../y z" (Some [("a", Str "b")]) = inl (p ++ "?a=b").
Proof.
  apply (requestPath_appends_query (env := environment) offline "x/../y z"
           [("a", Str "b")] (pathURL "/me" ""));
    reflexivity.
Defined.

(** The address of the request for one message. *)
Lemma plain_path_request_url_witness :
  exists req,
    net (query (online 200 "{}") "GET" "messages/42" (Some [("a", Str "b")]) None None [])
    = [req]
    /\ http.requestURL "https://graph.microsoft.com/v1.0/me/messages/42?a=b"
       = inl (http.URL req).
Proof.
  eexists. split; [reflexivity |].
  apply (plain_path_request_url (env := environment) (online 200 "{}") "me" [] false
           "messages" ["42"] "GET" (Some [("a", Str "b")]) None None []);
    reflexivity.
Defined.

Lemma verbs_pin_method_witness :
  exists req,
    net (Delete (online 200 "{}") "/messages/42" None None []) = [req]
    /\ http.Method req = "DELETE" /\ http.Payload req = "".
Proof.
  eexists. split; [reflexivity |].
  apply (proj1 (proj2 (verbs_pin_method (env := environment) (online 200 "{}")
                         "/messages/42" None None None [] _))).
  reflexivity.
Defined.

(** A 404 response comes back closed. *)
Lemma Do_returns_closed_body_witness :
  exists body,
    returnedResponse
      (ret (Do (clientWith (respond 404 invalidRecipient None) jsonType) getMe None []))
    = Some (http.withBody (answer 404 invalidRecipient None) body)
    /\ http.closed body = true.
Proof.
  apply (Do_returns_closed_body (env := environment)
           (clientWith (respond 404 invalidRecipient None) jsonType) getMe None []
           (answer 404 invalidRecipient None)).
  reflexivity.
Defined.

(** [Send] answered with 202, and with 404. *)
Lemma Send_nil_means_accepted_witness :
  snd (Send (online 202 "") (Str "hello") []) = None
  /\ exists req response,
      fst (Send (online 202 "") (Str "hello") []) = [req]
      /\ client (session_client (online 202 "")) req = inl response
      /\ http.StatusCode response = 202%Z.
Proof.
  split; [reflexivity |].
  apply (Send_nil_means_accepted (env := environment) (online 202 "") (Str "hello") []).
  reflexivity.
Defined.

Lemma Send_202_is_nil_witness :
  exists req, Send (online 202 "") (Str "hello") [] = ([req], None).
Proof.
  eexists.
  eapply (Send_202_is_nil (env := environment) (online 202 "") (Str "hello") []
            "/me/sendMail" _ (answer 202 "" None)).
  - discriminate.
  - reflexivity.
  - reflexivity.
  - reflexivity.
  - reflexivity.
  - reflexivity.
Defined.

Lemma Send_returns_error_of_Do_witness :
  exists req,
    Send (online 404 invalidRecipient) (Str "hello") []
    = ([req], Some (ResponseError 404 "invalid recipient")).
Proof.
  pose proof (fun req Hreq =>
                proj1 (Send_returns_error_of_Do (env := environment)
                         (online 404 invalidRecipient) (Str "hello") [] "/me/sendMail"
                         req ltac:(discriminate) eq_refl Hreq)
                  (answer 404 invalidRecipient None)) as H.
  eexists. eapply H; reflexivity.
Defined.

End FurtherExamples.
